(** * VerbaManager: a shallow embedding of goldenverba/verba_manager.py

    The manager object, the process-wide state it reads (os.environ, the
    openai and ssl modules) and the calls it makes to its collaborators
    (wasabi's msg, weaviate's client, the schema module and the three
    strategy managers) are modelled with explicit state passing: a method is
    a function from the state before the call to an outcome (a returned value
    or a raised exception) and the state after it.  Calls that leave the
    process are recorded, in order, in a trace. *)

From stdpp Require Import gmap strings list fin_maps.
From Stdlib Require Import ZArith Ascii String.

Local Open Scope string_scope.
Local Open Scope list_scope.

(** ** Python values and exceptions *)

(** The JSON-like values the store client hands back. *)
#[local] Set Warnings "-register-all".
Inductive PyVal : Type :=
| PyNone
| PyBool (b : bool)
| PyInt (z : Z)
| PyStr (s : string)
| PyList (l : list PyVal)
| PyDict (d : list (string * PyVal)).

Inductive exn : Type :=
| ImportError (module : string)
| UnboundLocalError (name : string)
| AttributeError (attr : string)
| KeyError (key : string)
| TypeError (what : string)
| NoStrategySelected
| LibraryError (what : string).

Inductive Outcome (A : Type) : Type :=
| Returned (a : A)
| Raised (e : exn).
Arguments Returned {A} a.
Arguments Raised {A} e.

Definition is_raised {A} (o : Outcome A) : bool :=
  match o with Raised _ => true | Returned _ => false end.

(** [d[k]] on a value: KeyError on a missing key, TypeError when the value
    is not subscriptable by a string. *)
Fixpoint assoc_get (d : list (string * PyVal)) (k : string) : option PyVal :=
  match d with
  | [] => None
  | (k', v) :: rest => if String.eqb k' k then Some v else assoc_get rest k
  end.

Definition py_getitem (v : PyVal) (k : string) : Outcome PyVal :=
  match v with
  | PyDict d =>
      match assoc_get d k with
      | Some x => Returned x
      | None => Raised (KeyError k)
      end
  | _ => Raised (TypeError "subscript")
  end.

(** A Python str is held as its UTF-8 bytes; a character is a leading byte
    with the continuation bytes (10xxxxxx) that follow it. *)
Definition is_continuation_byte (c : ascii) : bool :=
  let n := nat_of_ascii c in (128 <=? n)%nat && (n <? 192)%nat.

Definition starts_with_continuation (s : string) : bool :=
  match s with
  | String c _ => is_continuation_byte c
  | EmptyString => false
  end.

(** The characters of a str, each as a str of its own. *)
Fixpoint utf8_chars (s : string) : list string :=
  match s with
  | EmptyString => []
  | String c rest =>
      match utf8_chars rest with
      | first :: others =>
          if starts_with_continuation first
          then String c first :: others
          else String c EmptyString :: first :: others
      | [] => [String c EmptyString]
      end
  end.

(** Iterating a value: a list yields its items, a dict its keys and a str its
    characters; anything else is not iterable. *)
Definition py_iter (v : PyVal) : Outcome (list PyVal) :=
  match v with
  | PyList l => Returned l
  | PyDict d => Returned (map (fun kv => PyStr (fst kv)) d)
  | PyStr s => Returned (map PyStr (utf8_chars s))
  | _ => Raised (TypeError "iter")
  end.

(** len(v): the items of a list, the keys of a dict, the characters of a
    str. *)
Definition py_len (v : PyVal) : Outcome nat :=
  match v with
  | PyList l => Returned (List.length l)
  | PyDict d => Returned (List.length d)
  | PyStr s => Returned (List.length (utf8_chars s))
  | _ => Raised (TypeError "len")
  end.

(** response["data"]["Get"][class_name] *)
Definition response_objects (response : PyVal) (class_name : string) : Outcome PyVal :=
  match py_getitem response "data" with
  | Returned data =>
      match py_getitem data "Get" with
      | Returned got => py_getitem got class_name
      | Raised e => Raised e
      end
  | Raised e => Raised e
  end.

(** ** The class naming rule (schema_generation.strip_non_letters) *)

Definition is_ascii_letter (c : ascii) : bool :=
  let n := nat_of_ascii c in
  ((65 <=? n)%nat && (n <=? 90)%nat) || ((97 <=? n)%nat && (n <=? 122)%nat).

(** Modelled from the spec: schema_generation.strip_non_letters is not among
    the sources; the spec's naming contract is "retain only ASCII letters
    from the vectorizer identifier, preserving case and order". *)
Fixpoint strip_non_letters (s : string) : string :=
  match s with
  | EmptyString => EmptyString
  | String c rest =>
      if is_ascii_letter c
      then String c (strip_non_letters rest)
      else strip_non_letters rest
  end.

(** The expression both retrieval methods evaluate (lines 198 and 221). *)
Definition class_name_for (vectorizer : string) : string :=
  "Document_" +:+ strip_non_letters vectorizer.

(** ** Strategy registries *)

(** The reader, chunker and embedding managers are not among the sources;
    each is a registry as the spec's section 4.1 describes it. *)
Module Registry.
Section Registry.
Context {Impl : Type}.

(** Modelled from the spec: the managers' state is missing; a registry "holds
    a mapping from strategy name to a strategy implementation, plus one
    currently selected entry". *)
Record t : Type := Make {
  available : gmap string Impl;
  selected : option Impl
}.

(** Modelled from the spec: register(name, impl) is missing. *)
Definition register (name : string) (impl : Impl) (r : t) : t :=
  Make (<[name := impl]> (available r)) (selected r).

(** Modelled from the spec: set_reader, set_chunker and set_embedder are
    missing; select is "true iff name exists, and on success becomes the sole
    active implementation; on failure the previous selection is retained
    unchanged". *)
Definition select (name : string) (r : t) : bool * t :=
  match available r !! name with
  | Some impl => (true, Make (available r) (Some impl))
  | None => (false, r)
  end.


(** Modelled from the spec: the managers' choice of the strategy to run is
    missing; active "fails with NoStrategySelected if nothing has ever been
    selected". *)
Definition active (r : t) : Outcome Impl :=
  match selected r with
  | Some impl => Returned impl
  | None => Raised NoStrategySelected
  end.
End Registry.
Arguments t Impl : clear implicits.
End Registry.

(** ** Arguments of the calls that leave the manager *)

Inductive MsgLevel : Type := info | good | fail.

(** weaviate.embedded.EmbeddedOptions(persistence_data_path, binary_path) *)
Record EmbeddedOptions : Type := {
  persistence_data_path : string;
  binary_path : string
}.

(** weaviate.AuthApiKey(api_key) *)
Record AuthApiKey : Type := { api_key : string }.

(** Keyword arguments of weaviate.Client(...); an argument the call leaves
    out is [None]. *)
Record ClientArgs : Type := {
  url : option string;
  additional_headers : gmap string PyVal;
  auth_client_secret : option AuthApiKey;
  embedded_options : option EmbeddedOptions
}.

(** The query built by client.query.get(...).with_*(...) *)
Record Query : Type := {
  q_class_name : string;
  q_properties : list string;
  q_additional : list string;
  q_limit : option Z
}.

Definition query_get (class_name : string) (properties : list string) : Query :=
  {| q_class_name := class_name; q_properties := properties;
     q_additional := []; q_limit := None |}.

Definition with_additional (properties : list string) (q : Query) : Query :=
  {| q_class_name := q_class_name q; q_properties := q_properties q;
     q_additional := properties; q_limit := q_limit q |}.

Definition with_limit (limit : Z) (q : Query) : Query :=
  {| q_class_name := q_class_name q; q_properties := q_properties q;
     q_additional := q_additional q; q_limit := Some limit |}.

(** Positional arguments of ReaderManager.load *)
Record LoadArgs : Type := {
  la_bytes : list string;
  la_contents : list string;
  la_paths : list string;
  la_fileNames : list string;
  la_document_type : string
}.

(** The ssl module: whether it has [_create_unverified_context], and whether
    [_create_default_https_context] has been replaced by it. *)
Record SslModule : Type := {
  has_create_unverified_context : bool;
  default_https_context_unverified : bool
}.

(** ** The monad of methods: state passing with exceptions

    A raised exception keeps the state reached so far: what a method wrote
    before it raised stays written. *)

Module Method.
Section Method.
Context {S : Type}.

Definition M (A : Type) : Type := S -> Outcome A * S.

Definition ret {A} (a : A) : M A := fun s => (Returned a, s).

Definition raise {A} (e : exn) : M A := fun s => (Raised e, s).

Definition lift {A} (o : Outcome A) : M A := fun s => (o, s).

Definition bind {A B} (c : M A) (k : A -> M B) : M B :=
  fun s =>
    match c s with
    | (Returned a, s') => k a s'
    | (Raised e, s') => (Raised e, s')
    end.

(** try: body / except Exception: handler *)
Definition try_except {A} (body : M A) (handler : exn -> M A) : M A :=
  fun s =>
    match body s with
    | (Returned a, s') => (Returned a, s')
    | (Raised e, s') => handler e s'
    end.

Definition get : M S := fun s => (Returned s, s).

Definition modify (f : S -> S) : M unit := fun s => (Returned tt, f s).

(** for x in l: acc = body(x, acc) *)
Fixpoint fold_each {A B} (l : list A) (acc : B) (body : A -> B -> M B) : M B :=
  match l with
  | [] => ret acc
  | x :: rest => bind (body x acc) (fun acc' => fold_each rest acc' body)
  end.

(** for x in l: body(x) *)
Fixpoint for_each {A} (l : list A) (body : A -> M unit) : M unit :=
  match l with
  | [] => ret tt
  | x :: rest => bind (body x) (fun _ => for_each rest body)
  end.
End Method.
Arguments M S A : clear implicits.
End Method.
Import Method.

Declare Scope method_scope.
Delimit Scope method_scope with method.
Notation "x <- c ;; k" := (bind c (fun x => k))
  (at level 100, c at next level, right associativity) : method_scope.
Notation "c ;; k" := (bind c (fun _ => k))
  (at level 100, right associativity) : method_scope.

(** ** The manager and its world *)

Section Verba.
(** What lies outside this file's code: [Ext] is the state of the
    collaborators (the store behind the client, the Python heap holding the
    Document objects), [Client] a weaviate client object and [DocList] a
    reference to a Python list of Documents.  The stages mutate Documents in
    place, so a [DocList] is read in the [Ext] of the moment. *)
Context {Ext Client DocList : Type}.

(** A strategy is the capability object a registry holds; the interfaces
    Reader, Chunker and Embedder are not among the sources, and each is taken
    with what the manager uses of it. *)
Record Reader : Type := {
  reader_load : LoadArgs -> Ext -> Outcome DocList * Ext
}.
Record Chunker : Type := {
  chunker_chunk : DocList -> Z -> Z -> Ext -> Outcome DocList * Ext
}.
Record Embedder : Type := {
  vectorizer : string;
  embedder_embed : DocList -> option Client -> Ext -> Outcome bool * Ext
}.

(** weaviate.Client(...), schema_generation.init_schemas and the methods of
    a client object: each returns or raises, and may change [Ext]. *)
Context (weaviate_Client : ClientArgs -> Ext -> Outcome Client * Ext).
Context (init_schemas :
           option Client -> string -> bool -> bool -> Ext -> Outcome PyVal * Ext).
Context (client_schema_get : Client -> Ext -> Outcome PyVal * Ext).
Context (client_query_do : Client -> Query -> Ext -> Outcome PyVal * Ext).
Context (client_get_by_id : Client -> string -> string -> Ext -> Outcome PyVal * Ext).
Context (client_schema_delete_all : Client -> Ext -> Outcome unit * Ext).

(** schema_generation.VECTORIZERS and schema_generation.EMBEDDINGS, and the
    managers as ReaderManager(), ChunkerManager() and EmbeddingManager()
    build them. *)
Context (VECTORIZERS EMBEDDINGS : list string).
Context (ReaderManager_new : Registry.t Reader).
Context (ChunkerManager_new : Registry.t Chunker).
Context (EmbeddingManager_new : Registry.t Embedder).

Inductive Event : Type :=
| EvMsg (level : MsgLevel) (text : string)
| EvPrint (text : string)
| EvNewClient (args : ClientArgs)
| EvInitSchemas (c : option Client) (vectorizer : string) (force check : bool)
| EvLoad (args : LoadArgs)
| EvChunk (docs : DocList) (units overlap : Z)
| EvEmbed (docs : DocList) (c : option Client)
| EvSchemaGet (c : Client)
| EvQuery (c : Client) (q : Query)
| EvGetById (c : Client) (doc_id class_name : string)
| EvDeleteAll (c : Client).

Record VerbaManager : Type := {
  reader_manager : Registry.t Reader;
  chunker_manager : Registry.t Chunker;
  embedder_manager : Registry.t Embedder;
  environment_variables : gmap string bool;
  installed_libraries : gmap string bool;
  weaviate_type : string;
  client : option Client
}.

(** [openai_module] is [None] when [import openai] raises, and otherwise
    holds the module's [api_key] attribute. *)
Record World : Type := {
  environ : gmap string string;
  openai_module : option PyVal;
  spacy_importable : bool;
  ssl_module : SslModule;
  ext : Ext;
  trace : list Event
}.

Record State : Type := { self : VerbaManager; world : World }.

Local Open Scope method_scope.

(** *** Field updates *)

Definition set_environment_variables (v : gmap string bool) (m : VerbaManager) : VerbaManager :=
  {| reader_manager := reader_manager m; chunker_manager := chunker_manager m;
     embedder_manager := embedder_manager m; environment_variables := v;
     installed_libraries := installed_libraries m;
     weaviate_type := weaviate_type m; client := client m |}.

Definition set_installed_libraries (v : gmap string bool) (m : VerbaManager) : VerbaManager :=
  {| reader_manager := reader_manager m; chunker_manager := chunker_manager m;
     embedder_manager := embedder_manager m;
     environment_variables := environment_variables m; installed_libraries := v;
     weaviate_type := weaviate_type m; client := client m |}.

Definition set_weaviate_type (v : string) (m : VerbaManager) : VerbaManager :=
  {| reader_manager := reader_manager m; chunker_manager := chunker_manager m;
     embedder_manager := embedder_manager m;
     environment_variables := environment_variables m;
     installed_libraries := installed_libraries m;
     weaviate_type := v; client := client m |}.

Definition set_client (v : option Client) (m : VerbaManager) : VerbaManager :=
  {| reader_manager := reader_manager m; chunker_manager := chunker_manager m;
     embedder_manager := embedder_manager m;
     environment_variables := environment_variables m;
     installed_libraries := installed_libraries m;
     weaviate_type := weaviate_type m; client := v |}.

Definition set_reader_manager (v : Registry.t Reader) (m : VerbaManager) : VerbaManager :=
  {| reader_manager := v; chunker_manager := chunker_manager m;
     embedder_manager := embedder_manager m;
     environment_variables := environment_variables m;
     installed_libraries := installed_libraries m;
     weaviate_type := weaviate_type m; client := client m |}.

Definition set_chunker_manager (v : Registry.t Chunker) (m : VerbaManager) : VerbaManager :=
  {| reader_manager := reader_manager m; chunker_manager := v;
     embedder_manager := embedder_manager m;
     environment_variables := environment_variables m;
     installed_libraries := installed_libraries m;
     weaviate_type := weaviate_type m; client := client m |}.

Definition set_embedder_manager (v : Registry.t Embedder) (m : VerbaManager) : VerbaManager :=
  {| reader_manager := reader_manager m; chunker_manager := chunker_manager m;
     embedder_manager := v;
     environment_variables := environment_variables m;
     installed_libraries := installed_libraries m;
     weaviate_type := weaviate_type m; client := client m |}.

Definition set_openai_module (v : option PyVal) (w : World) : World :=
  {| environ := environ w; openai_module := v;
     spacy_importable := spacy_importable w; ssl_module := ssl_module w;
     ext := ext w; trace := trace w |}.

Definition set_ssl_module (v : SslModule) (w : World) : World :=
  {| environ := environ w; openai_module := openai_module w;
     spacy_importable := spacy_importable w; ssl_module := v;
     ext := ext w; trace := trace w |}.

Definition set_ext (v : Ext) (w : World) : World :=
  {| environ := environ w; openai_module := openai_module w;
     spacy_importable := spacy_importable w; ssl_module := ssl_module w;
     ext := v; trace := trace w |}.

Definition set_trace (v : list Event) (w : World) : World :=
  {| environ := environ w; openai_module := openai_module w;
     spacy_importable := spacy_importable w; ssl_module := ssl_module w;
     ext := ext w; trace := v |}.

Definition on_self (f : VerbaManager -> VerbaManager) : M State unit :=
  modify (fun s => {| self := f (self s); world := world s |}).

Definition on_world (f : World -> World) : M State unit :=
  modify (fun s => {| self := self s; world := f (world s) |}).

(** *** Primitive statements *)

Definition log (e : Event) : M State unit :=
  on_world (fun w => set_trace (trace w ++ [e]) w).

(** msg.info(text), msg.good(text), msg.fail(text) *)
Definition msg (level : MsgLevel) (text : string) : M State unit :=
  log (EvMsg level text).

Definition print (text : string) : M State unit := log (EvPrint text).

(** A call to a collaborator: recorded, then run on the collaborators'
    state. *)
Definition call {A} (e : Event) (f : Ext -> Outcome A * Ext) : M State A :=
  log e ;;
  fun s =>
    let (r, x) := f (ext (world s)) in
    (r, {| self := self s; world := set_ext x (world s) |}).

(** os.environ.get(key, default), the default being the empty string *)
Definition environ_get (key : string) : M State string :=
  s <- get ;; ret (default EmptyString (environ (world s) !! key)).

(** self.environment_variables[key] = b *)
Definition environment_variables_setitem (key : string) (b : bool) : M State unit :=
  on_self (fun m => set_environment_variables (<[key := b]> (environment_variables m)) m).

(** self.installed_libraries[key] = b *)
Definition installed_libraries_setitem (key : string) (b : bool) : M State unit :=
  on_self (fun m => set_installed_libraries (<[key := b]> (installed_libraries m)) m).

(** import openai: binds the local name, or raises. *)
Definition import_openai : M State unit :=
  s <- get ;;
  match openai_module (world s) with
  | Some _ => ret tt
  | None => raise (ImportError "openai")
  end.

(** import spacy *)
Definition import_spacy : M State unit :=
  s <- get ;;
  if spacy_importable (world s) then ret tt else raise (ImportError "spacy").

(** openai.api_key = v *)
Definition openai_api_key_set (v : PyVal) : M State unit :=
  on_world (set_openai_module (Some v)).

(** The expression openai.api_key, where [openai_bound] says whether the
    local name openai was bound by the import. *)
Definition openai_api_key_get (openai_bound : bool) : M State PyVal :=
  if openai_bound then
    s <- get ;;
    match openai_module (world s) with
    | Some v => ret v
    | None => raise (AttributeError "api_key")
    end
  else raise (UnboundLocalError "openai").

(** Lines 125-130: install the unverified https context when ssl has one. *)
Definition ssl_use_unverified_context : M State unit :=
  s <- get ;;
  if has_create_unverified_context (ssl_module (world s))
  then on_world (set_ssl_module
                   {| has_create_unverified_context := true;
                      default_https_context_unverified := true |})
  else ret tt.

Definition new_Client (args : ClientArgs) : M State Client :=
  call (EvNewClient args) (weaviate_Client args).

(** *** The strategy managers *)

(** Modelled from the spec: ReaderManager.load is missing; the read stage is
    the active Reader's ("using the currently selected
    Reader/Chunker/Embedder"). *)
Definition ReaderManager_load (args : LoadArgs) : M State DocList :=
  s <- get ;;
  r <- lift (Registry.active (reader_manager (self s))) ;;
  call (EvLoad args) (reader_load r args).

(** Modelled from the spec: ChunkerManager.chunk is missing; the chunk stage
    is the active Chunker's. *)
Definition ChunkerManager_chunk (docs : DocList) (units overlap : Z) : M State DocList :=
  s <- get ;;
  c <- lift (Registry.active (chunker_manager (self s))) ;;
  call (EvChunk docs units overlap) (chunker_chunk c docs units overlap).

(** Modelled from the spec: EmbeddingManager.embed is missing; the embed
    stage is the active Embedder's, which embeds and persists through the
    client and reports overall success or failure. *)
Definition EmbeddingManager_embed (docs : DocList) (cl : option Client) : M State bool :=
  s <- get ;;
  e <- lift (Registry.active (embedder_manager (self s))) ;;
  call (EvEmbed docs cl) (embedder_embed e docs cl).

(** *** VerbaManager (lines 22-231) *)

(** setup_client, lines 86-147.  The two locals the try block may change,
    additional_header and the name openai, are the value of the try
    statement: the import is its first statement and the only one that can
    raise, so the handler leaves them as they were before it. *)
Definition setup_client : M State (option Client) :=
  msg info "Setting up client" ;;
  let additional_header : gmap string PyVal := ∅ in
  locals <- try_except
    (import_openai ;;
     openai_key <- environ_get "OPENAI_API_KEY" ;;
     if negb (String.eqb openai_key EmptyString) then
       environment_variables_setitem "OPENAI_API_KEY" true ;;
       openai_api_key_set (PyStr openai_key) ;;
       msg info "OpenAI API key detected" ;;
       ret (<["X-OpenAI-Api-Key" := PyStr openai_key]> additional_header, true)
     else
       environment_variables_setitem "OPENAI_API_KEY" false ;;
       ret (additional_header, true))
    (fun _ =>
       environment_variables_setitem "OPENAI_API_KEY" false ;;
       ret (additional_header, false)) ;;
  let additional_header := fst locals in
  let openai_bound := snd locals in
  weaviate_url <- environ_get "VERBA_URL" ;;
  cl <- (if negb (String.eqb weaviate_url EmptyString) then
           weaviate_key <- environ_get "VERBA_API_KEY" ;;
           environment_variables_setitem "VERBA_URL" true ;;
           on_self (set_weaviate_type "Weaviate Cluster") ;;
           let auth_config := {| api_key := weaviate_key |} in
           c <- new_Client {| url := Some weaviate_url;
                              additional_headers := additional_header;
                              auth_client_secret := Some auth_config;
                              embedded_options := None |} ;;
           ret (Some c)
         else
           ssl_use_unverified_context ;;
           msg info "Using Weaviate Embedded" ;;
           on_self (set_weaviate_type "Weaviate Embedded") ;;
           key <- openai_api_key_get openai_bound ;;
           c <- new_Client {| url := None;
                              additional_headers := {["X-OpenAI-Api-Key" := key]};
                              auth_client_secret := None;
                              embedded_options :=
                                Some {| persistence_data_path := "./.verba/local/share/";
                                        binary_path := "./.verba/cache/weaviate-embedded" |} |} ;;
           ret (Some c)) ;;
  match cl with
  | Some _ => msg good "Connected to Weaviate"
  | None => msg fail "Connection to Weaviate failed"
  end ;;
  ret cl.

(** verify_installed_libraries, lines 149-160 *)
Definition verify_installed_libraries : M State unit :=
  try_except
    (import_spacy ;; installed_libraries_setitem "spacy" true)
    (fun _ => installed_libraries_setitem "spacy" false).

(** verify_variables, lines 162-171 *)
Definition verify_variables : M State unit :=
  key <- environ_get "OPENAI_API_KEY" ;;
  if negb (String.eqb key EmptyString)
  then environment_variables_setitem "OPENAI_API_KEY" true
  else environment_variables_setitem "OPENAI_API_KEY" false.

(** schema_manager.init_schemas(self.client, vectorizer, False, True); the
    value it returns is dropped. *)
Definition call_init_schemas (vectorizer : string) : M State unit :=
  s <- get ;;
  let cl := client (self s) in
  call (EvInitSchemas cl vectorizer false true)
       (init_schemas cl vectorizer false true) ;;
  ret tt.

(** The schema setups for the identifiers, made one after the other from the
    collaborators' state [x], all return, and leave the state [x']. *)
Inductive setups_return (cl : option Client) : list string -> Ext -> Ext -> Prop :=
| setups_return_nil (x : Ext) : setups_return cl [] x x
| setups_return_cons (v : string) (rest : list string) (x x1 x' : Ext) (r : PyVal) :
    init_schemas cl v false true x = (Returned r, x1) ->
    setups_return cl rest x1 x' ->
    setups_return cl (v :: rest) x x'.

(** Lines 37-42: the two loops that end the constructor. *)
Definition init_all_schemas : M State unit :=
  for_each VECTORIZERS call_init_schemas ;;
  for_each EMBEDDINGS call_init_schemas.

(** The object as lines 26-31 leave it; the attribute client does not exist
    yet (nothing reads it before line 32 assigns it). *)
Definition self_before_setup : VerbaManager :=
  {| reader_manager := ReaderManager_new;
     chunker_manager := ChunkerManager_new;
     embedder_manager := EmbeddingManager_new;
     environment_variables := ∅;
     installed_libraries := ∅;
     weaviate_type := EmptyString;
     client := None |}.

(** Lines 32-35 *)
Definition init_connect_and_verify : M State unit :=
  cl <- setup_client ;;
  on_self (set_client cl) ;;
  verify_installed_libraries ;;
  verify_variables.

Definition init_body : M State unit :=
  init_connect_and_verify ;;
  init_all_schemas.

(** VerbaManager(): the constructed object, or the exception that ended the
    construction. *)
Definition __init__ (w : World) : Outcome VerbaManager * World :=
  match init_body {| self := self_before_setup; world := w |} with
  | (Returned _, s) => (Returned (self s), world s)
  | (Raised e, s) => (Raised e, world s)
  end.

(** import_data, lines 44-66; the Python None of line 66 is [None]. *)
Definition import_data (args : LoadArgs) (units overlap : Z) : M State (option DocList) :=
  loaded_documents <- ReaderManager_load args ;;
  modified_documents <- ChunkerManager_chunk loaded_documents units overlap ;;
  s <- get ;;
  ok <- EmbeddingManager_embed modified_documents (client (self s)) ;;
  if ok : bool then
    msg good "Embedding successful" ;;
    ret (Some modified_documents)
  else
    msg fail "Embedding failed" ;;
    ret None.

(** Lines 68-84: each method hands the call to its manager, whose set_* and
    get_* are the registry's select and listAvailable. *)
Definition reader_set_reader (reader : string) : M State bool :=
  s <- get ;;
  let (found, r) := Registry.select reader (reader_manager (self s)) in
  on_self (set_reader_manager r) ;;
  ret found.


Definition chunker_set_chunker (chunker : string) : M State bool :=
  s <- get ;;
  let (found, r) := Registry.select chunker (chunker_manager (self s)) in
  on_self (set_chunker_manager r) ;;
  ret found.


Definition embedder_set_embedder (embedder : string) : M State bool :=
  s <- get ;;
  let (found, r) := Registry.select embedder (embedder_manager (self s)) in
  on_self (set_embedder_manager r) ;;
  ret found.


(** self.client.<attr>: the client, or AttributeError on None. *)
Definition self_client (attr : string) : M State Client :=
  s <- get ;;
  match client (self s) with
  | Some c => ret c
  | None => raise (AttributeError attr)
  end.

(** self.embedder_manager.selected_embedder.vectorizer *)
Definition selected_embedder_vectorizer : M State string :=
  s <- get ;;
  match Registry.selected (embedder_manager (self s)) with
  | Some e => ret (vectorizer e)
  | None => raise (AttributeError "vectorizer")
  end.

(** client.query.get takes a str for the class name. *)
Definition as_class_name (v : PyVal) : M State string :=
  match v with
  | PyStr name => ret name
  | _ => raise (TypeError "class_name")
  end.

(** get_schemas, lines 173-191.  _class["class"] is read three times in the
    loop body; it is read once here, the expression having no effect. *)
Definition get_schemas : M State (gmap string nat) :=
  c <- self_client "schema" ;;
  schema_info <- call (EvSchemaGet c) (client_schema_get c) ;;
  classes <- lift (py_getitem schema_info "classes") ;;
  items <- lift (py_iter classes) ;;
  fold_each items (∅ : gmap string nat)
    (fun _class schemas =>
       class_v <- lift (py_getitem _class "class") ;;
       name <- as_class_name class_v ;;
       c <- self_client "query" ;;
       let q := with_additional ["id"] (with_limit 100000 (query_get name [])) in
       results <- call (EvQuery c q) (client_query_do c q) ;;
       objects <- lift (response_objects results name) ;;
       n <- lift (py_len objects) ;;
       ret (<[name := n]> schemas)).

(** retrieve_all_documents, lines 193-214 *)
Definition retrieve_all_documents : M State PyVal :=
  v <- selected_embedder_vectorizer ;;
  let class_name := "Document_" +:+ strip_non_letters v in
  print class_name ;;
  c <- self_client "query" ;;
  let q := with_limit 10000
             (with_additional ["id"]
                (query_get class_name ["doc_name"; "doc_type"; "doc_link"])) in
  query_results <- call (EvQuery c q) (client_query_do c q) ;;
  results <- lift (response_objects query_results class_name) ;;
  ret results.

(** retrieve_document, lines 216-229 *)
Definition retrieve_document (doc_id : string) : M State PyVal :=
  v <- selected_embedder_vectorizer ;;
  let class_name := "Document_" +:+ strip_non_letters v in
  c <- self_client "data_object" ;;
  document <- call (EvGetById c doc_id class_name) (client_get_by_id c doc_id class_name) ;;
  ret document.

(** reset, lines 231-232 *)
Definition reset : M State unit :=
  c <- self_client "schema" ;;
  call (EvDeleteAll c) (client_schema_delete_all c).

(** Events that are a connection attempt, and events that are a schema
    setup. *)
Definition is_new_client (ev : Event) : bool :=
  match ev with EvNewClient _ => true | _ => false end.

Definition is_init_schemas (ev : Event) : bool :=
  match ev with EvInitSchemas _ _ _ _ => true | _ => false end.

(** The store's side of a bounded query: the list it returns for the queried
    class is no longer than the query's limit. *)
Definition honours_limit : Prop :=
  forall c q x response x' n l,
    client_query_do c q x = (Returned response, x') ->
    q_limit q = Some n ->
    response_objects response (q_class_name q) = Returned (PyList l) ->
    (Z.of_nat (List.length l) <= n)%Z.


(** A method that leaves every attribute of the manager as it found it,
    whether it returns or raises. *)
Definition keeps_self {A} (c : M State A) : Prop :=
  forall s, self (snd (c s)) = self s.
End Verba.

(** ** A small concrete installation

    Collaborators simple enough to run: the store is a journal of what was
    written to it, a client is the name of its target and a document list is
    the list of the documents' contents. *)

Module Sample.
Definition Ext : Type := list string.
Definition Client : Type := string.
Definition DocList : Type := list string.

Definition connect (args : ClientArgs) (x : Ext) : Outcome Client * Ext :=
  (Returned (default "embedded" (url args)), x).

(** Schema setup that reports failure for cohere through its return value. *)
Definition init_schemas (c : option Client) (v : string) (force check : bool)
    (x : Ext) : Outcome PyVal * Ext :=
  if String.eqb v "text2vec-cohere"
  then (Returned (PyBool false), x)
  else (Returned (PyBool true), x).

(** Schema setup that succeeds for every identifier. *)
Definition init_schemas_ok (c : option Client) (v : string) (force check : bool)
    (x : Ext) : Outcome PyVal * Ext :=
  (Returned (PyBool true), x).

(** Schema setup against a store that takes two classes and then raises. *)
Definition init_schemas_small_store (c : option Client) (v : string)
    (force check : bool) (x : Ext) : Outcome PyVal * Ext :=
  if (List.length x <? 2)%nat
  then (Returned (PyBool true), x ++ ["class Document_" +:+ strip_non_letters v])
  else (Raised (LibraryError ("no room for " +:+ v)), x).

(** A remote cluster that cannot be reached, while the embedded instance
    would start. *)
Definition connect_remote_down (args : ClientArgs) (x : Ext) : Outcome Client * Ext :=
  match url args with
  | Some u => (Raised (LibraryError ("cannot reach " +:+ u)), x)
  | None => (Returned "embedded", x)
  end.

(** Schema setup that raises for openai. *)
Definition init_schemas_raising (c : option Client) (v : string) (force check : bool)
    (x : Ext) : Outcome PyVal * Ext :=
  if String.eqb v "text2vec-openai"
  then (Raised (LibraryError "schema"), x)
  else (Returned (PyBool true), ("class Document_" +:+ strip_non_letters v) :: x).

Definition VECTORIZERS : list string := ["text2vec-openai"; "text2vec-cohere"].
Definition EMBEDDINGS : list string := ["MiniLM"].

Definition simple_reader : @Reader Ext DocList :=
  {| reader_load := fun args x => (Returned (la_contents args), x) |}.

Definition word_chunker : @Chunker Ext DocList :=
  {| chunker_chunk := fun docs units overlap x => (Returned (map (fun d => "chunked " +:+ d) docs), x) |}.

Definition minilm : @Embedder Ext Client DocList :=
  {| vectorizer := "MiniLM";
     embedder_embed := fun docs c x => (Returned true, x ++ docs) |}.

(** An embedder that persists what it can and reports failure. *)
Definition ada : @Embedder Ext Client DocList :=
  {| vectorizer := "text2vec-openai";
     embedder_embed := fun docs c x => (Returned false, x ++ take 1 docs) |}.

Definition readers : Registry.t (@Reader Ext DocList) :=
  Registry.Make {["SimpleReader" := simple_reader]} (Some simple_reader).

Definition chunkers : Registry.t (@Chunker Ext DocList) :=
  Registry.Make {["WordChunker" := word_chunker]} (Some word_chunker).

Definition embedders : Registry.t (@Embedder Ext Client DocList) :=
  Registry.Make (<["ADAEmbedder" := ada]> {["MiniLMEmbedder" := minilm]}) (Some minilm).

(** A store that answers a query with the journal's entries as records, cut
    at the query's limit. *)
Definition query_do (c : Client) (q : Query) (x : Ext) : Outcome PyVal * Ext :=
  let records := map PyStr x in
  let answer page :=
    (Returned (PyDict [("data", PyDict [("Get", PyDict [(q_class_name q, PyList page)])])]), x) in
  match q_limit q with
  | Some n =>
      if (n <? 0)%Z then (Raised (LibraryError "limit"), x)
      else answer (take (Z.to_nat n) records)
  | None => answer records
  end.

Definition schema_get (c : Client) (x : Ext) : Outcome PyVal * Ext :=
  (Returned (PyDict [("classes", PyList [PyDict [("class", PyStr "Document_MiniLM")]])]), x).

Definition get_by_id (c : Client) (doc_id class_name : string) (x : Ext) : Outcome PyVal * Ext :=
  (Returned (PyDict [("id", PyStr doc_id); ("class", PyStr class_name)]), x).

Definition delete_all (c : Client) (x : Ext) : Outcome unit * Ext := (Returned tt, []).

Definition ssl : SslModule :=
  {| has_create_unverified_context := true; default_https_context_unverified := false |}.

(** No VERBA_URL and no openai library. *)
Definition world_bare : @World Ext Client DocList :=
  {| environ := ∅; openai_module := None; spacy_importable := false;
     ssl_module := ssl; ext := []; trace := [] |}.

(** No VERBA_URL, openai installed, no key. *)
Definition world_embedded : @World Ext Client DocList :=
  {| environ := ∅; openai_module := Some PyNone; spacy_importable := true;
     ssl_module := ssl; ext := []; trace := [] |}.

(** A remote cluster and an OpenAI key. *)
Definition world_remote : @World Ext Client DocList :=
  {| environ := <["VERBA_URL" := "https://verba.example"]>
                  (<["VERBA_API_KEY" := "secret"]>
                     {["OPENAI_API_KEY" := "sk-1"]});
     openai_module := Some PyNone; spacy_importable := true;
     ssl_module := ssl; ext := []; trace := [] |}.

(** A remote cluster and an OpenAI key, without the openai library. *)
Definition world_remote_bare : @World Ext Client DocList :=
  {| environ := <["VERBA_URL" := "https://verba.example"]>
                  (<["VERBA_API_KEY" := "secret"]>
                     {["OPENAI_API_KEY" := "sk-1"]});
     openai_module := None; spacy_importable := false;
     ssl_module := ssl; ext := []; trace := [] |}.

Definition manager : @VerbaManager Ext Client DocList :=
  {| reader_manager := readers; chunker_manager := chunkers;
     embedder_manager := embedders;
     environment_variables := {["OPENAI_API_KEY" := false]};
     installed_libraries := {["spacy" := true]};
     weaviate_type := "Weaviate Embedded"; client := Some "embedded" |}.

Definition state : @State Ext Client DocList :=
  {| self := manager; world := world_embedded |}.

(** The same installation after the ADA embedder was selected. *)
Definition state_ada : @State Ext Client DocList :=
  snd (embedder_set_embedder "ADAEmbedder" state).

(** The object of a fresh construction, before line 32. *)
Definition fresh (w : @World Ext Client DocList) : @State Ext Client DocList :=
  {| self := self_before_setup readers chunkers embedders; world := w |}.

(** A chunker that raises, and the installation with it selected. *)
Definition broken_chunker : @Chunker Ext DocList :=
  {| chunker_chunk := fun docs units overlap x => (Raised (LibraryError "chunk"), x) |}.

Definition state_broken : @State Ext Client DocList :=
  {| self := {| reader_manager := readers;
                chunker_manager :=
                  Registry.Make {["Broken" := broken_chunker]} (Some broken_chunker);
                embedder_manager := embedders;
                environment_variables := {["OPENAI_API_KEY" := false]};
                installed_libraries := {["spacy" := true]};
                weaviate_type := "Weaviate Embedded"; client := Some "embedded" |};
     world := world_embedded |}.

(** A store that answers every query with an error response, as weaviate
    does for a class that does not exist. *)
Definition query_error (c : Client) (q : Query) (x : Ext) : Outcome PyVal * Ext :=
  (Returned (PyDict [("errors", PyList [PyStr "no such class"])]), x).

(** A schema response without the key classes. *)
Definition schema_get_empty (c : Client) (x : Ext) : Outcome PyVal * Ext :=
  (Returned (PyDict []), x).

Definition batch : LoadArgs :=
  {| la_bytes := []; la_contents := ["alpha"; "beta"]; la_paths := [];
     la_fileNames := ["a.txt"; "b.txt"]; la_document_type := "Documentation" |}.

(** The installation after the batch was imported. *)
Definition state_loaded : @State Ext Client DocList :=
  snd (import_data batch 100 50 state).
End Sample.

(** * Properties *)

(** ** The naming rule *)

Lemma strip_non_letters_filter (s : string) :
  list_ascii_of_string (strip_non_letters s)
  = List.filter is_ascii_letter (list_ascii_of_string s).
Proof.
  induction s as [|c rest IH]; simpl; [reflexivity|].
  destruct (is_ascii_letter c); simpl; congruence.
Qed.

Lemma strip_non_letters_letters (s : string) :
  Forall (fun c => is_ascii_letter c = true)
         (list_ascii_of_string (strip_non_letters s)).
Proof.
  rewrite strip_non_letters_filter.
  apply List.Forall_forall. intros c Hc.
  apply List.filter_In in Hc. tauto.
Qed.

Lemma strip_non_letters_idempotent (s : string) :
  strip_non_letters (strip_non_letters s) = strip_non_letters s.
Proof.
  induction s as [|c rest IH]; simpl; [reflexivity|].
  destruct (is_ascii_letter c) eqn:Hc; simpl; [rewrite Hc, IH|]; auto.
Qed.

(** ** Running methods *)

Section Facts.
Context {Ext Client DocList : Type}.

#[local] Abbreviation State := (@State Ext Client DocList).
#[local] Abbreviation World := (@World Ext Client DocList).
#[local] Abbreviation Event := (@Event Client DocList).

Local Open Scope method_scope.

Lemma bind_returned {S A B} (c : M S A) (k : A -> M S B) s a s' :
  c s = (Returned a, s') -> bind c k s = k a s'.
Proof. unfold bind. intros ->. reflexivity. Qed.

Lemma bind_raised {S A B} (c : M S A) (k : A -> M S B) s e s' :
  c s = (Raised e, s') -> bind c k s = (Raised e, s').
Proof. unfold bind. intros ->. reflexivity. Qed.

Lemma for_each_app {S A} (l1 l2 : list A) (body : A -> M S unit) (s : S) :
  for_each (l1 ++ l2) body s = bind (for_each l1 body) (fun _ => for_each l2 body) s.
Proof.
  revert s. induction l1 as [|x l1 IH]; intros s; simpl.
  - reflexivity.
  - unfold bind in *. destruct (body x s) as [[u|e] s1]; [apply IH|reflexivity].
Qed.

(** ** Selecting strategies *)

(** C7: in each of the three registries, selecting a name returns true
    exactly when the name is registered; on true the entry registered under
    the name is the selected one, on false the state is the one before the
    call; and a selection in one registry leaves the other two registries
    as they were. *)
Theorem select_strategy_spec (s : State) (name : string) :
  (exists found,
      fst (reader_set_reader name s) = Returned found
      /\ (found = true <-> is_Some (Registry.available (reader_manager (self s)) !! name))
      /\ (found = true ->
          Registry.selected (reader_manager (self (snd (reader_set_reader name s))))
          = Registry.available (reader_manager (self s)) !! name
          /\ Registry.available (reader_manager (self (snd (reader_set_reader name s))))
             = Registry.available (reader_manager (self s)))
      /\ (found = false -> snd (reader_set_reader name s) = s)
      /\ chunker_manager (self (snd (reader_set_reader name s))) = chunker_manager (self s)
      /\ embedder_manager (self (snd (reader_set_reader name s))) = embedder_manager (self s))
  /\ (exists found,
      fst (chunker_set_chunker name s) = Returned found
      /\ (found = true <-> is_Some (Registry.available (chunker_manager (self s)) !! name))
      /\ (found = true ->
          Registry.selected (chunker_manager (self (snd (chunker_set_chunker name s))))
          = Registry.available (chunker_manager (self s)) !! name
          /\ Registry.available (chunker_manager (self (snd (chunker_set_chunker name s))))
             = Registry.available (chunker_manager (self s)))
      /\ (found = false -> snd (chunker_set_chunker name s) = s)
      /\ reader_manager (self (snd (chunker_set_chunker name s))) = reader_manager (self s)
      /\ embedder_manager (self (snd (chunker_set_chunker name s))) = embedder_manager (self s))
  /\ (exists found,
      fst (embedder_set_embedder name s) = Returned found
      /\ (found = true <-> is_Some (Registry.available (embedder_manager (self s)) !! name))
      /\ (found = true ->
          Registry.selected (embedder_manager (self (snd (embedder_set_embedder name s))))
          = Registry.available (embedder_manager (self s)) !! name
          /\ Registry.available (embedder_manager (self (snd (embedder_set_embedder name s))))
             = Registry.available (embedder_manager (self s)))
      /\ (found = false -> snd (embedder_set_embedder name s) = s)
      /\ reader_manager (self (snd (embedder_set_embedder name s))) = reader_manager (self s)
      /\ chunker_manager (self (snd (embedder_set_embedder name s))) = chunker_manager (self s)).
Proof.
  destruct s as [m w]. destruct m as [rm cm em ev il wt cl].
  unfold reader_set_reader, chunker_set_chunker, embedder_set_embedder,
    Registry.select, bind, get, on_self, modify, ret. simpl.
  repeat apply conj.
  - destruct (Registry.available rm !! name) as [impl|]; simpl.
    + exists true. repeat apply conj; eauto; discriminate.
    + exists false. repeat apply conj; try discriminate; try reflexivity.
      intros [x Hx]. discriminate.
  - destruct (Registry.available cm !! name) as [impl|]; simpl.
    + exists true. repeat apply conj; eauto; discriminate.
    + exists false. repeat apply conj; try discriminate; try reflexivity.
      intros [x Hx]. discriminate.
  - destruct (Registry.available em !! name) as [impl|]; simpl.
    + exists true. repeat apply conj; eauto; discriminate.
    + exists false. repeat apply conj; try discriminate; try reflexivity.
      intros [x Hx]. discriminate.
Qed.

(** ** The ingestion pipeline *)

Ltac run_method :=
  repeat progress
    (cbv beta iota zeta delta
       [bind get lift ret raise try_except call log msg print on_world on_self
        modify Registry.active];
     cbn [self world ext trace environ openai_module spacy_importable
          ssl_module set_trace set_ext set_openai_module set_ssl_module
          fst snd]).

(** C1: with a reader, a chunker and an embedder selected, import_data
    calls the reader on the inputs, the chunker on what the reader returned
    and the embedder on what the chunker returned, each in the state the
    stage before left; when the embedder reports success the call returns
    the chunker's list, read in the state the embedder left. *)
Theorem import_data_success (s : State) (args : LoadArgs) (units overlap : Z)
    (r : Reader) (ch : Chunker) (e : Embedder)
    (loaded modified : DocList) (x1 x2 x3 : Ext) :
  Registry.selected (reader_manager (self s)) = Some r ->
  Registry.selected (chunker_manager (self s)) = Some ch ->
  Registry.selected (embedder_manager (self s)) = Some e ->
  reader_load r args (ext (world s)) = (Returned loaded, x1) ->
  chunker_chunk ch loaded units overlap x1 = (Returned modified, x2) ->
  embedder_embed e modified (client (self s)) x2 = (Returned true, x3) ->
  import_data args units overlap s
  = (Returned (Some modified),
     {| self := self s;
        world := set_trace (trace (world s)
                            ++ [EvLoad args;
                                EvChunk loaded units overlap;
                                EvEmbed modified (client (self s));
                                EvMsg good "Embedding successful"])
                           (set_ext x3 (world s)) |}).
Proof.
  intros Hr Hc He Hload Hchunk Hembed.
  destruct s as [m w]. destruct w as [env oa sp ssl x tr]. simpl in *.
  unfold import_data, ReaderManager_load, ChunkerManager_chunk, EmbeddingManager_embed.
  run_method. rewrite Hr. run_method. rewrite Hload. run_method.
  rewrite Hc. run_method. rewrite Hchunk. run_method.
  rewrite He. run_method. rewrite Hembed. run_method.
  rewrite <- !app_assoc. reflexivity.
Qed.

(** C2: when the embedder reports failure, import_data returns None: the
    caller gets neither the document list nor a part of it. *)
Theorem import_data_failure (s : State) (args : LoadArgs) (units overlap : Z)
    (r : Reader) (ch : Chunker) (e : Embedder)
    (loaded modified : DocList) (x1 x2 x3 : Ext) :
  Registry.selected (reader_manager (self s)) = Some r ->
  Registry.selected (chunker_manager (self s)) = Some ch ->
  Registry.selected (embedder_manager (self s)) = Some e ->
  reader_load r args (ext (world s)) = (Returned loaded, x1) ->
  chunker_chunk ch loaded units overlap x1 = (Returned modified, x2) ->
  embedder_embed e modified (client (self s)) x2 = (Returned false, x3) ->
  import_data args units overlap s
  = (Returned None,
     {| self := self s;
        world := set_trace (trace (world s)
                            ++ [EvLoad args;
                                EvChunk loaded units overlap;
                                EvEmbed modified (client (self s));
                                EvMsg fail "Embedding failed"])
                           (set_ext x3 (world s)) |}).
Proof.
  intros Hr Hc He Hload Hchunk Hembed.
  destruct s as [m w]. destruct w as [env oa sp ssl x tr]. simpl in *.
  unfold import_data, ReaderManager_load, ChunkerManager_chunk, EmbeddingManager_embed.
  run_method. rewrite Hr. run_method. rewrite Hload. run_method.
  rewrite Hc. run_method. rewrite Hchunk. run_method.
  rewrite He. run_method. rewrite Hembed. run_method.
  rewrite <- !app_assoc. reflexivity.
Qed.

(** ** Methods that do not write to the manager *)

Lemma keeps_self_ret {A} (a : A) : keeps_self (ret a : M State A).
Proof. intros s. reflexivity. Qed.

Lemma keeps_self_raise {A} (e : exn) : keeps_self (raise e : M State A).
Proof. intros s. reflexivity. Qed.

Lemma keeps_self_lift {A} (o : Outcome A) : keeps_self (lift o : M State A).
Proof. intros s. reflexivity. Qed.

Lemma keeps_self_get : keeps_self (get : M State State).
Proof. intros s. reflexivity. Qed.

Lemma keeps_self_on_world (f : World -> World) : keeps_self (on_world f).
Proof. intros s. reflexivity. Qed.

Lemma keeps_self_bind {A B} (c : M State A) (k : A -> M State B) :
  keeps_self c -> (forall a, keeps_self (k a)) -> keeps_self (bind c k).
Proof.
  intros Hc Hk s. unfold bind. specialize (Hc s).
  destruct (c s) as [[a|e] s1]; simpl in *.
  - rewrite Hk. exact Hc.
  - exact Hc.
Qed.

Lemma keeps_self_log (e : Event) : keeps_self (log e : M State unit).
Proof. apply keeps_self_on_world. Qed.

Lemma keeps_self_call {A} (e : Event) (f : Ext -> Outcome A * Ext) :
  keeps_self (call e f : M State A).
Proof.
  apply keeps_self_bind; [apply keeps_self_log|].
  intros _ s. destruct (f (ext (world s))); reflexivity.
Qed.

Lemma keeps_self_fold_each {A B} (l : list A) (body : A -> B -> M State B) :
  (forall x acc, keeps_self (body x acc)) ->
  forall acc, keeps_self (fold_each l acc body).
Proof.
  intros Hbody. induction l as [|x rest IH]; intros acc; simpl.
  - apply keeps_self_ret.
  - apply keeps_self_bind; [apply Hbody | exact IH].
Qed.

Lemma keeps_self_for_each {A} (l : list A) (body : A -> M State unit) :
  (forall x, keeps_self (body x)) -> keeps_self (for_each l body).
Proof.
  intros Hbody. induction l as [|x rest IH]; simpl.
  - apply keeps_self_ret.
  - apply keeps_self_bind; [apply Hbody | intros _; exact IH].
Qed.

Lemma keeps_self_call_init_schemas
    (init_schemas : option Client -> string -> bool -> bool -> Ext -> Outcome PyVal * Ext)
    (v : string) :
  keeps_self (call_init_schemas init_schemas v : M State unit).
Proof.
  unfold call_init_schemas.
  apply keeps_self_bind; [apply keeps_self_get|]. intros s0.
  apply keeps_self_bind; [apply keeps_self_call|]. intros _. apply keeps_self_ret.
Qed.

Lemma keeps_self_self_client (attr : string) : keeps_self (self_client attr : M State Client).
Proof.
  apply keeps_self_bind; [apply keeps_self_get|].
  intros s0. destruct (client (self s0)); [apply keeps_self_ret | apply keeps_self_raise].
Qed.

Lemma keeps_self_selected_embedder_vectorizer :
  keeps_self (selected_embedder_vectorizer : M State string).
Proof.
  apply keeps_self_bind; [apply keeps_self_get|].
  intros s0. destruct (Registry.selected (embedder_manager (self s0)));
    [apply keeps_self_ret | apply keeps_self_raise].
Qed.

Create HintDb keeps.
#[local] Hint Resolve keeps_self_ret keeps_self_raise keeps_self_lift keeps_self_get
  keeps_self_on_world keeps_self_log keeps_self_call keeps_self_self_client
  keeps_self_selected_embedder_vectorizer : keeps.

Ltac keeps :=
  repeat first
    [ solve [auto with keeps]
    | apply keeps_self_bind; [|intros]
    | match goal with
      | |- keeps_self (if ?b then _ else _) => destruct b
      | |- keeps_self (match ?v with _ => _ end) => destruct v
      end ].

Section Store.
Context (client_schema_get : Client -> Ext -> Outcome PyVal * Ext).
Context (client_query_do : Client -> Query -> Ext -> Outcome PyVal * Ext).
Context (client_get_by_id : Client -> string -> string -> Ext -> Outcome PyVal * Ext).
Context (client_schema_delete_all : Client -> Ext -> Outcome unit * Ext).

Lemma keeps_self_import_data (args : LoadArgs) (units overlap : Z) :
  keeps_self (import_data args units overlap : M State (option DocList)).
Proof.
  unfold import_data, ReaderManager_load, ChunkerManager_chunk,
    EmbeddingManager_embed, msg.
  keeps.
Qed.

Lemma keeps_self_retrieve_all_documents :
  keeps_self (retrieve_all_documents client_query_do : M State PyVal).
Proof. unfold retrieve_all_documents, print. keeps. Qed.

Lemma keeps_self_retrieve_document (doc_id : string) :
  keeps_self (retrieve_document client_get_by_id doc_id : M State PyVal).
Proof. unfold retrieve_document. keeps. Qed.

Lemma keeps_self_get_schemas :
  keeps_self (get_schemas client_schema_get client_query_do : M State (gmap string nat)).
Proof.
  unfold get_schemas. keeps.
  apply keeps_self_fold_each. intros _class schemas.
  unfold as_class_name. keeps.
Qed.

Lemma keeps_self_reset :
  keeps_self (reset client_schema_delete_all : M State unit).
Proof. unfold reset. keeps. Qed.

(** C9: import_data, retrieve_all_documents, retrieve_document, get_schemas
    and reset leave environment_variables and installed_libraries as they
    were before the call, whether the call returns or raises. *)
Theorem flags_not_mutated (s : State) (args : LoadArgs) (units overlap : Z)
    (doc_id : string) :
  (environment_variables (self (snd (import_data args units overlap s)))
   = environment_variables (self s)
   /\ installed_libraries (self (snd (import_data args units overlap s)))
      = installed_libraries (self s))
  /\ (environment_variables (self (snd (retrieve_all_documents client_query_do s)))
      = environment_variables (self s)
      /\ installed_libraries (self (snd (retrieve_all_documents client_query_do s)))
         = installed_libraries (self s))
  /\ (environment_variables (self (snd (retrieve_document client_get_by_id doc_id s)))
      = environment_variables (self s)
      /\ installed_libraries (self (snd (retrieve_document client_get_by_id doc_id s)))
         = installed_libraries (self s))
  /\ (environment_variables (self (snd (get_schemas client_schema_get client_query_do s)))
      = environment_variables (self s)
      /\ installed_libraries (self (snd (get_schemas client_schema_get client_query_do s)))
         = installed_libraries (self s))
  /\ (environment_variables (self (snd (reset client_schema_delete_all s)))
      = environment_variables (self s)
      /\ installed_libraries (self (snd (reset client_schema_delete_all s)))
         = installed_libraries (self s)).
Proof.
  rewrite (keeps_self_import_data args units overlap s),
    (keeps_self_retrieve_all_documents s),
    (keeps_self_retrieve_document doc_id s),
    (keeps_self_get_schemas s), (keeps_self_reset s).
  repeat split.
Qed.

(** ** Retrieval *)

(** C3: with an embedder selected, retrieve_all_documents and
    retrieve_document address the same class, whose name is Document_
    followed by the embedder's vectorizer identifier with its
    characters other than ASCII letters removed, the letters kept in their
    order and case. *)
Theorem class_name_rule (s : State) (e : Embedder) (c : Client) (doc_id : string) :
  Registry.selected (embedder_manager (self s)) = Some e ->
  client (self s) = Some c ->
  (exists q,
      trace (world (snd (retrieve_all_documents client_query_do s)))
      = trace (world s) ++ [EvPrint (class_name_for (vectorizer e)); EvQuery c q]
      /\ q_class_name q = class_name_for (vectorizer e))
  /\ trace (world (snd (retrieve_document client_get_by_id doc_id s)))
     = trace (world s) ++ [EvGetById c doc_id (class_name_for (vectorizer e))]
  /\ class_name_for (vectorizer e) = "Document_" +:+ strip_non_letters (vectorizer e)
  /\ list_ascii_of_string (strip_non_letters (vectorizer e))
     = List.filter is_ascii_letter (list_ascii_of_string (vectorizer e)).
Proof.
  intros He Hc. destruct s as [m w]. destruct w as [env oa sp ssl x tr].
  simpl in He, Hc.
  repeat apply conj.
  - eexists. unfold retrieve_all_documents, selected_embedder_vectorizer, self_client.
    run_method. rewrite He. run_method. rewrite Hc. run_method.
    destruct (client_query_do _ _ x) as [[response|err] x']; run_method.
    + destruct (response_objects _ _); run_method;
        rewrite <- app_assoc; split; reflexivity.
    + rewrite <- app_assoc; split; reflexivity.
  - unfold retrieve_document, selected_embedder_vectorizer, self_client.
    run_method. rewrite He. run_method. rewrite Hc. run_method.
    destruct (client_get_by_id _ _ _ x) as [[document|err] x']; reflexivity.
  - reflexivity.
  - apply strip_non_letters_filter.
Qed.

(** C8: retrieve_all_documents sends one query, to the class of the selected
    embedder, for doc_name, doc_type and doc_link with the additional id and
    the limit 10000; with a store that keeps to the limit of a query, the
    list it returns has at most 10000 records. *)
Theorem retrieve_all_documents_bounded (s : State) (e : Embedder) (c : Client) :
  honours_limit client_query_do ->
  Registry.selected (embedder_manager (self s)) = Some e ->
  client (self s) = Some c ->
  trace (world (snd (retrieve_all_documents client_query_do s)))
  = trace (world s)
    ++ [EvPrint (class_name_for (vectorizer e));
        EvQuery c {| q_class_name := class_name_for (vectorizer e);
                     q_properties := ["doc_name"; "doc_type"; "doc_link"];
                     q_additional := ["id"];
                     q_limit := Some 10000%Z |}]
  /\ forall l, fst (retrieve_all_documents client_query_do s) = Returned (PyList l) ->
               (Z.of_nat (List.length l) <= 10000)%Z.
Proof.
  intros Hstore He Hc. destruct s as [m w]. destruct w as [env oa sp ssl x tr].
  simpl in He, Hc.
  unfold retrieve_all_documents, selected_embedder_vectorizer, self_client.
  run_method. rewrite He. run_method. rewrite Hc. run_method.
  unfold query_get, with_additional, with_limit; simpl.
  fold (class_name_for (vectorizer e)).
  destruct (client_query_do _ _ x) as [[response|err] x'] eqn:Hdo; run_method.
  - destruct (response_objects _ _) as [objects|err] eqn:Hobj; run_method.
    + split; [rewrite <- app_assoc; reflexivity|].
      intros l [= ->].
      exact (Hstore _ _ _ _ _ 10000%Z l Hdo eq_refl Hobj).
    + split; [rewrite <- app_assoc; reflexivity|]. discriminate.
  - split; [rewrite <- app_assoc; reflexivity|]. discriminate.
Qed.
End Store.

(** ** Setting up the client *)

Ltac run_setup :=
  repeat progress
    (cbv beta iota zeta delta
       [bind get lift ret raise try_except call log msg print on_world on_self
        modify environ_get environment_variables_setitem
        installed_libraries_setitem import_openai import_spacy
        openai_api_key_set openai_api_key_get ssl_use_unverified_context
        new_Client];
     cbn [self world ext trace environ openai_module spacy_importable
          ssl_module set_trace set_ext set_openai_module set_ssl_module
          fst snd negb has_create_unverified_context]).

Section Startup.
Context (weaviate_Client : ClientArgs -> Ext -> Outcome Client * Ext).
Context (init_schemas :
           option Client -> string -> bool -> bool -> Ext -> Outcome PyVal * Ext).
Context (VECTORIZERS EMBEDDINGS : list string).
Context (ReaderManager_new : Registry.t (@Reader Ext DocList)).
Context (ChunkerManager_new : Registry.t (@Chunker Ext DocList)).
Context (EmbeddingManager_new : Registry.t (@Embedder Ext Client DocList)).

Lemma setup_client_unbound (s : State) :
  default EmptyString (environ (world s) !! "VERBA_URL") = EmptyString ->
  openai_module (world s) = None ->
  exists s',
    setup_client weaviate_Client s = (Raised (UnboundLocalError "openai"), s')
    /\ trace (world s')
       = trace (world s)
         ++ [EvMsg info "Setting up client"; EvMsg info "Using Weaviate Embedded"]
    /\ ext (world s') = ext (world s).
Proof.
  intros Hurl Hoa. destruct s as [m w]. destruct w as [env oa sp ssl x tr].
  simpl in Hurl, Hoa. subst oa.
  unfold setup_client. run_setup. rewrite Hurl. simpl (negb _). run_setup.
  destruct ssl as [has dflt]. destruct has; run_setup.
  - eexists. repeat apply conj; [reflexivity| |reflexivity].
    cbn [world trace]. rewrite <- app_assoc. reflexivity.
  - eexists. repeat apply conj; [reflexivity| |reflexivity].
    cbn [world trace]. rewrite <- app_assoc. reflexivity.
Qed.

Lemma init_raises_with_setup_client (w : World) (e : exn) (s' : State) :
  setup_client weaviate_Client
    {| self := self_before_setup ReaderManager_new ChunkerManager_new
                 EmbeddingManager_new;
       world := w |} = (Raised e, s') ->
  __init__ weaviate_Client init_schemas VECTORIZERS EMBEDDINGS
    ReaderManager_new ChunkerManager_new EmbeddingManager_new w
  = (Raised e, world s').
Proof.
  intros Hsetup. unfold __init__, init_body, init_connect_and_verify.
  unfold bind at 1 2 3 4. rewrite Hsetup. reflexivity.
Qed.

Lemma setup_client_never_none (s s' : State) (r : option Client) :
  setup_client weaviate_Client s = (Returned r, s') -> is_Some r.
Proof.
  destruct s as [m w]. destruct w as [env oa sp ssl x tr].
  destruct ssl as [has dflt].
  unfold setup_client. run_setup.
  destruct oa as [key0|]; run_setup;
    destruct (String.eqb (default EmptyString (env !! "OPENAI_API_KEY")) EmptyString); run_setup;
    destruct (String.eqb (default EmptyString (env !! "VERBA_URL")) EmptyString); run_setup;
    destruct has; run_setup;
    try match goal with
      | |- context [weaviate_Client ?a ?x] =>
          destruct (weaviate_Client a x) as [[c|e0] x']
      end; run_setup; intros [= <- <-]; eauto.
Qed.

Lemma init_connect_and_verify_client (s0 s1 : State) :
  init_connect_and_verify weaviate_Client s0 = (Returned tt, s1) ->
  is_Some (client (self s1)).
Proof.
  unfold init_connect_and_verify. unfold bind at 1.
  destruct (setup_client weaviate_Client s0) as [[r|e] s'] eqn:Hsetup;
    [|discriminate].
  apply setup_client_never_none in Hsetup as [c ->].
  destruct s' as [m w]. destruct w as [env oa sp ssl x tr].
  unfold verify_installed_libraries, verify_variables. run_setup.
  destruct sp; run_setup;
    destruct (String.eqb (default EmptyString (env !! "OPENAI_API_KEY")) EmptyString); run_setup;
    intros [= <-]; cbn; eauto.
Qed.

(** ** Schema setup at construction *)

Lemma init_all_schemas_for_each (s : State) :
  init_all_schemas init_schemas VECTORIZERS EMBEDDINGS s
  = for_each (VECTORIZERS ++ EMBEDDINGS) (call_init_schemas init_schemas) s.
Proof. unfold init_all_schemas. rewrite for_each_app. reflexivity. Qed.

Lemma init_after_connect (w : World) (s1 : State) :
  init_connect_and_verify weaviate_Client
    {| self := self_before_setup ReaderManager_new ChunkerManager_new
                 EmbeddingManager_new;
       world := w |} = (Returned tt, s1) ->
  __init__ weaviate_Client init_schemas VECTORIZERS EMBEDDINGS
    ReaderManager_new ChunkerManager_new EmbeddingManager_new w
  = match for_each (VECTORIZERS ++ EMBEDDINGS) (call_init_schemas init_schemas) s1 with
    | (Returned _, s) => (Returned (self s), world s)
    | (Raised e, s) => (Raised e, world s)
    end.
Proof.
  intros Hpre. unfold __init__, init_body. unfold bind at 1.
  rewrite Hpre, init_all_schemas_for_each. reflexivity.
Qed.

Lemma setups_run (cl : option Client) (l : list string) (x x' : Ext) :
  setups_return init_schemas cl l x x' ->
  forall s : State,
    client (self s) = cl ->
    ext (world s) = x ->
    for_each l (call_init_schemas init_schemas) s
    = (Returned tt,
       {| self := self s;
          world := set_trace
                     (trace (world s)
                      ++ map (fun v => EvInitSchemas cl v false true) l)
                     (set_ext x' (world s)) |}).
Proof.
  induction 1 as [x|v rest x x1 x' r Hcall Hrest IH]; intros s Hcl Hx.
  - destruct s as [m w]. destruct w. cbn in Hx. subst. cbn.
    unfold ret, set_trace, set_ext. cbn. rewrite app_nil_r. reflexivity.
  - destruct s as [m w]. destruct w. cbn [self world ext] in Hcl, Hx. subst.
    cbn [for_each]. unfold call_init_schemas at 1. run_method.
    rewrite Hcall. run_method.
    rewrite IH by reflexivity.
    cbn [self world trace set_trace set_ext ext environ openai_module
         spacy_importable ssl_module map].
    rewrite <- app_assoc. reflexivity.
Qed.

Lemma setups_raise (cl : option Client) (pre post : list string) (v : string)
    (e : exn) (x x1 x2 : Ext) (s : State) :
  setups_return init_schemas cl pre x x1 ->
  init_schemas cl v false true x1 = (Raised e, x2) ->
  client (self s) = cl ->
  ext (world s) = x ->
  for_each (pre ++ v :: post) (call_init_schemas init_schemas) s
  = (Raised e,
     {| self := self s;
        world := set_trace
                   (trace (world s)
                    ++ map (fun v => EvInitSchemas cl v false true) (pre ++ [v]))
                   (set_ext x2 (world s)) |}).
Proof.
  intros Hpre Hcall Hcl Hx. rewrite for_each_app.
  unfold bind at 1. rewrite (setups_run cl pre x x1 Hpre s Hcl Hx).
  destruct s as [m w]. destruct w. cbn [self world ext] in Hcl, Hx. subst.
  cbn [for_each]. unfold call_init_schemas at 1. run_method.
  rewrite Hcall. run_method.
  rewrite map_app. cbn [map]. rewrite <- app_assoc. reflexivity.
Qed.

Lemma setups_return_or_raise (cl : option Client) (l : list string) :
  forall x : Ext,
    (exists x', setups_return init_schemas cl l x x')
    \/ (exists pre v post e x1 x2,
          l = pre ++ v :: post
          /\ setups_return init_schemas cl pre x x1
          /\ init_schemas cl v false true x1 = (Raised e, x2)).
Proof.
  induction l as [|v rest IH]; intros x.
  - left. exists x. constructor.
  - destruct (init_schemas cl v false true x) as [[r|e] x1] eqn:Hcall.
    + destruct (IH x1) as [[x' Hrest]|(pre & u & post & e & y1 & y2 & -> & Hpre & Hu)].
      * left. exists x'. econstructor; eassumption.
      * right. exists (v :: pre), u, post, e, y1, y2.
        repeat apply conj; [reflexivity | econstructor; eassumption | exact Hu].
    + right. exists [], v, rest, e, x, x1.
      repeat apply conj; [reflexivity | constructor | exact Hcall].
Qed.

(** C4, as the constructor does it: once lines 32-35 have returned,
    init_schemas is called with the client, force False and check True for
    each identifier of VECTORIZERS and then of EMBEDDINGS, as long as each
    call returns in the state the run has reached; what the calls return is
    dropped and the constructed manager is the one line 35 left, so a failure
    reported by the returned value stops nothing.  A call that raises ends
    the construction with its exception, and the identifiers after it are
    not attempted.  Every run is one of the two. *)
Theorem schema_setup_at_construction (w : World) (s1 : State) :
  init_connect_and_verify weaviate_Client
    {| self := self_before_setup ReaderManager_new ChunkerManager_new
                 EmbeddingManager_new;
       world := w |} = (Returned tt, s1) ->
  (forall x',
      setups_return init_schemas (client (self s1)) (VECTORIZERS ++ EMBEDDINGS)
        (ext (world s1)) x' ->
      __init__ weaviate_Client init_schemas VECTORIZERS EMBEDDINGS
        ReaderManager_new ChunkerManager_new EmbeddingManager_new w
      = (Returned (self s1),
         set_trace
           (trace (world s1)
            ++ map (fun v => EvInitSchemas (client (self s1)) v false true)
                 (VECTORIZERS ++ EMBEDDINGS))
           (set_ext x' (world s1))))
  /\ (forall pre v post e x1 x2,
        VECTORIZERS ++ EMBEDDINGS = pre ++ v :: post ->
        setups_return init_schemas (client (self s1)) pre (ext (world s1)) x1 ->
        init_schemas (client (self s1)) v false true x1 = (Raised e, x2) ->
        __init__ weaviate_Client init_schemas VECTORIZERS EMBEDDINGS
          ReaderManager_new ChunkerManager_new EmbeddingManager_new w
        = (Raised e,
           set_trace
             (trace (world s1)
              ++ map (fun v => EvInitSchemas (client (self s1)) v false true)
                   (pre ++ [v]))
             (set_ext x2 (world s1))))
  /\ ((exists x',
         setups_return init_schemas (client (self s1)) (VECTORIZERS ++ EMBEDDINGS)
           (ext (world s1)) x')
      \/ (exists pre v post e x1 x2,
            VECTORIZERS ++ EMBEDDINGS = pre ++ v :: post
            /\ setups_return init_schemas (client (self s1)) pre (ext (world s1)) x1
            /\ init_schemas (client (self s1)) v false true x1 = (Raised e, x2))).
Proof.
  intros Hpre. repeat apply conj.
  - intros x' Hall.
    rewrite (init_after_connect w s1 Hpre),
      (setups_run _ _ _ _ Hall s1 eq_refl eq_refl).
    reflexivity.
  - intros pre v post e x1 x2 Hsplit Hbefore Hraise.
    rewrite (init_after_connect w s1 Hpre), Hsplit,
      (setups_raise _ pre post v e _ x1 x2 s1 Hbefore Hraise eq_refl eq_refl).
    reflexivity.
  - apply setups_return_or_raise.
Qed.

(** C10: with VERBA_URL unset and openai not importable, setup_client
    raises at the name openai in the embedded branch, before any client is
    constructed, and so does the constructor. *)
Theorem embedded_startup_needs_openai (s : State) :
  environ (world s) !! "VERBA_URL" = None ->
  openai_module (world s) = None ->
  (exists s',
      setup_client weaviate_Client s = (Raised (UnboundLocalError "openai"), s')
      /\ trace (world s')
         = trace (world s)
           ++ [EvMsg info "Setting up client"; EvMsg info "Using Weaviate Embedded"])
  /\ (exists w',
        __init__ weaviate_Client init_schemas VECTORIZERS EMBEDDINGS
          ReaderManager_new ChunkerManager_new EmbeddingManager_new (world s)
        = (Raised (UnboundLocalError "openai"), w')
        /\ trace w'
           = trace (world s)
             ++ [EvMsg info "Setting up client"; EvMsg info "Using Weaviate Embedded"]).
Proof.
  intros Hurl Hoa. split.
  - destruct (setup_client_unbound s) as (s' & Hrun & Htrace & _);
      [rewrite Hurl; reflexivity | exact Hoa |].
    exists s'. split; assumption.
  - destruct (setup_client_unbound
                {| self := self_before_setup ReaderManager_new ChunkerManager_new
                             EmbeddingManager_new;
                   world := world s |}) as (s' & Hrun & Htrace & _);
      [cbn [world]; rewrite Hurl; reflexivity | exact Hoa |].
    exists (world s'). split.
    + apply init_raises_with_setup_client. exact Hrun.
    + exact Htrace.
Qed.

(** X10: the one connection attempt of setup_client: the remote cluster when
    VERBA_URL is not empty, with the collected headers and the API key; the
    embedded instance otherwise, when the name openai is bound. *)
Lemma setup_client_connection_target (s : State) :
  let env := environ (world s) in
  let weaviate_url := default EmptyString (env !! "VERBA_URL") in
  let openai_key := default EmptyString (env !! "OPENAI_API_KEY") in
  exists evs,
    trace (world (snd (setup_client weaviate_Client s))) = trace (world s) ++ evs
    /\ List.filter is_new_client evs
       = if negb (String.eqb weaviate_url EmptyString) then
           [EvNewClient
              {| url := Some weaviate_url;
                 additional_headers :=
                   match openai_module (world s) with
                   | Some _ =>
                       if negb (String.eqb openai_key EmptyString)
                       then {["X-OpenAI-Api-Key" := PyStr openai_key]}
                       else ∅
                   | None => ∅
                   end;
                 auth_client_secret :=
                   Some {| api_key := default EmptyString (env !! "VERBA_API_KEY") |};
                 embedded_options := None |}]
         else
           match openai_module (world s) with
           | Some v =>
               [EvNewClient
                  {| url := None;
                     additional_headers :=
                       {["X-OpenAI-Api-Key" :=
                           if negb (String.eqb openai_key EmptyString)
                           then PyStr openai_key else v]};
                     auth_client_secret := None;
                     embedded_options :=
                       Some {| persistence_data_path := "./.verba/local/share/";
                               binary_path := "./.verba/cache/weaviate-embedded" |} |}]
           | None => []
           end.
Proof.
  destruct s as [m w]. destruct w as [env oa sp ssl x tr].
  destruct ssl as [has dflt]. cbv zeta. cbn [world environ openai_module trace].
  unfold setup_client. run_setup.
  destruct oa as [key0|]; run_setup;
    destruct (String.eqb (default EmptyString (env !! "OPENAI_API_KEY")) EmptyString); run_setup;
    destruct (String.eqb (default EmptyString (env !! "VERBA_URL")) EmptyString); run_setup;
    destruct has; run_setup;
    try match goal with
      | |- context [weaviate_Client ?a ?x] =>
          destruct (weaviate_Client a x) as [[c|e0] x']
      end; run_setup.
  all: eexists; cbn [world trace set_ext set_trace set_ssl_module];
    (split; [rewrite <- ?app_assoc; reflexivity|]); reflexivity.
Qed.
End Startup.
(** ** Further properties of the methods *)

(** X1: a stage that raises ends import_data with its exception: the stages
    after it are not called and no message is logged; what the stages before
    it did to the collaborators' state stays done. *)
Theorem import_data_stops_at_raise (s : State) (args : LoadArgs) (units overlap : Z)
    (r : Reader) (ch : Chunker) (e : Embedder) :
  Registry.selected (reader_manager (self s)) = Some r ->
  Registry.selected (chunker_manager (self s)) = Some ch ->
  Registry.selected (embedder_manager (self s)) = Some e ->
  match reader_load r args (ext (world s)) with
  | (Raised err, x1) =>
      import_data args units overlap s
      = (Raised err,
         {| self := self s;
            world := set_trace (trace (world s) ++ [EvLoad args])
                               (set_ext x1 (world s)) |})
  | (Returned loaded, x1) =>
      match chunker_chunk ch loaded units overlap x1 with
      | (Raised err, x2) =>
          import_data args units overlap s
          = (Raised err,
             {| self := self s;
                world := set_trace (trace (world s)
                                    ++ [EvLoad args; EvChunk loaded units overlap])
                                   (set_ext x2 (world s)) |})
      | (Returned modified, x2) =>
          match embedder_embed e modified (client (self s)) x2 with
          | (Raised err, x3) =>
              import_data args units overlap s
              = (Raised err,
                 {| self := self s;
                    world := set_trace (trace (world s)
                                        ++ [EvLoad args;
                                            EvChunk loaded units overlap;
                                            EvEmbed modified (client (self s))])
                                       (set_ext x3 (world s)) |})
          | (Returned _, _) => True
          end
      end
  end.
Proof.
  intros Hr Hc He.
  destruct s as [m w]. destruct w as [env oa sp ssl x tr]. simpl in *.
  unfold import_data, ReaderManager_load, ChunkerManager_chunk, EmbeddingManager_embed.
  run_method. rewrite Hr. run_method.
  destruct (reader_load r args x) as [[loaded|err] x1]; run_method;
    [|reflexivity].
  rewrite Hc. run_method.
  destruct (chunker_chunk ch loaded units overlap x1) as [[modified|err] x2];
    run_method; [|rewrite <- !app_assoc; reflexivity].
  rewrite He. run_method.
  destruct (embedder_embed e modified (client m) x2) as [[ok|err] x3];
    run_method; [exact I|rewrite <- !app_assoc; reflexivity].
Qed.


Section Operations.
Context (weaviate_Client : ClientArgs -> Ext -> Outcome Client * Ext).
Context (client_schema_get : Client -> Ext -> Outcome PyVal * Ext).
Context (client_query_do : Client -> Query -> Ext -> Outcome PyVal * Ext).
Context (client_get_by_id : Client -> string -> string -> Ext -> Outcome PyVal * Ext).
Context (client_schema_delete_all : Client -> Ext -> Outcome unit * Ext).


(** X3: when the store answers the query with a response that has no key
    data (an error response), retrieve_all_documents raises KeyError for
    data after the query was made; it returns no empty list in its place. *)
Theorem retrieve_all_documents_error_response (s : State) (e : Embedder) (c : Client)
    (d : list (string * PyVal)) (x' : Ext) :
  Registry.selected (embedder_manager (self s)) = Some e ->
  client (self s) = Some c ->
  client_query_do c
    {| q_class_name := class_name_for (vectorizer e);
       q_properties := ["doc_name"; "doc_type"; "doc_link"];
       q_additional := ["id"];
       q_limit := Some 10000%Z |} (ext (world s)) = (Returned (PyDict d), x') ->
  assoc_get d "data" = None ->
  retrieve_all_documents client_query_do s
  = (Raised (KeyError "data"),
     {| self := self s;
        world := set_trace
                   (trace (world s)
                    ++ [EvPrint (class_name_for (vectorizer e));
                        EvQuery c {| q_class_name := class_name_for (vectorizer e);
                                     q_properties := ["doc_name"; "doc_type"; "doc_link"];
                                     q_additional := ["id"];
                                     q_limit := Some 10000%Z |}])
                   (set_ext x' (world s)) |}).
Proof.
  intros He Hc Hdo Hdata. destruct s as [m w]. destruct w as [env oa sp ssl x tr].
  simpl in He, Hc, Hdo.
  unfold retrieve_all_documents, selected_embedder_vectorizer, self_client.
  run_method. rewrite He. run_method. rewrite Hc. run_method.
  unfold query_get, with_additional, with_limit; simpl.
  fold (class_name_for (vectorizer e)). rewrite Hdo. run_method.
  unfold response_objects. cbn [py_getitem]. rewrite Hdata.
  rewrite <- app_assoc. reflexivity.
Qed.
End Operations.

(** ** Counting the objects of each class *)

Section Schemas.
Context (client_schema_get : Client -> Ext -> Outcome PyVal * Ext).
Context (client_query_do : Client -> Query -> Ext -> Outcome PyVal * Ext).

(** The query get_schemas sends for a class (lines 183-186). *)
#[local] Abbreviation count_query name :=
  {| q_class_name := name; q_properties := [];
     q_additional := ["id"]; q_limit := Some 100000%Z |}.

(** The body of the loop of get_schemas (lines 182-189). *)
#[local] Abbreviation count_class :=
  (fun (_class : PyVal) (schemas : gmap string nat) =>
     class_v <- lift (py_getitem _class "class") ;;
     name <- as_class_name class_v ;;
     c <- self_client "query" ;;
     let q := with_additional ["id"] (with_limit 100000 (query_get name [])) in
     results <- call (EvQuery c q) (client_query_do c q) ;;
     objects <- lift (response_objects results name) ;;
     n <- lift (py_len objects) ;;
     ret (<[name := n]> schemas) : M State (gmap string nat)).

Lemma count_class_returns (item : PyVal) (acc acc' : gmap string nat)
    (s s1 : State) (c : Client) :
  client (self s) = Some c ->
  count_class item acc s = (Returned acc', s1) ->
  exists name response objects n,
    py_getitem item "class" = Returned (PyStr name)
    /\ client_query_do c (count_query name) (ext (world s))
       = (Returned response, ext (world s1))
    /\ response_objects response name = Returned objects
    /\ py_len objects = Returned n
    /\ acc' = <[name := n]> acc
    /\ trace (world s1) = trace (world s) ++ [EvQuery c (count_query name)]
    /\ self s1 = self s.
Proof.
  intros Hc. destruct s as [m w]. destruct w as [env oa sp ssl x tr].
  cbn [self world] in Hc. unfold as_class_name, self_client. run_method.
  destruct (py_getitem item "class") as [class_v|err]; run_method; [|discriminate].
  destruct class_v as [| | |name| |]; run_method; try discriminate.
  rewrite Hc. run_method.
  unfold query_get, with_additional, with_limit; cbn [q_class_name q_properties
    q_additional q_limit].
  destruct (client_query_do c _ x) as [[response|err] x1] eqn:Hdo; run_method;
    [|discriminate].
  destruct (response_objects response name) as [objects|err] eqn:Hobj; run_method;
    [|discriminate].
  destruct (py_len objects) as [n|err] eqn:Hlen; run_method; [|discriminate].
  intros [= <- <-]. exists name, response, objects, n.
  cbn [self world ext trace set_trace set_ext]. repeat apply conj; reflexivity || assumption.
Qed.

Lemma count_loop_returns (items : list PyVal) (c : Client) :
  forall (acc r : gmap string nat) (s s' : State),
    client (self s) = Some c ->
    fold_each items acc count_class s = (Returned r, s') ->
    exists names,
      Forall2 (fun item name => py_getitem item "class" = Returned (PyStr name))
              items names
      /\ trace (world s')
         = trace (world s) ++ map (fun name => EvQuery c (count_query name)) names
      /\ dom r = dom acc ∪ list_to_set names
      /\ self s' = self s.
Proof.
  induction items as [|item rest IH]; intros acc r s s' Hc Hrun.
  - cbn in Hrun. injection Hrun as Hr Hs. subst r s'. exists [].
    repeat apply conj.
    + constructor.
    + cbn. rewrite app_nil_r. reflexivity.
    + cbn. symmetry. apply (right_id_L ∅ (∪)).
    + reflexivity.
  - pose proof (count_class_returns item acc) as Hreturns.
    revert Hrun.
    change (fold_each (item :: rest) acc count_class s)
      with (match count_class item acc s with
            | (Returned a, s1) => fold_each rest a count_class s1
            | (Raised e, s1) => (Raised e, s1)
            end).
    destruct (count_class item acc s) as [[acc1|err] s1] eqn:Hstep;
      [|discriminate].
    intros Hrun.
    destruct (Hreturns acc1 s s1 c Hc Hstep)
      as (name & response & objects & n & Hname & Hdo & Hobj & Hlen & Hacc & Htr & Hself).
    subst acc1.
    destruct (IH _ _ _ _ (eq_trans (f_equal client Hself) Hc) Hrun)
      as (names & Hnames & Htr' & Hdom & Hself').
    exists (name :: names). repeat apply conj.
    + constructor; assumption.
    + rewrite Htr', Htr, <- app_assoc. reflexivity.
    + rewrite Hdom, dom_insert_L. cbn [list_to_set foldr].
      rewrite (comm_L (∪) {[name]} (dom acc)), <- (assoc_L (∪)). reflexivity.
    + congruence.
Qed.

(** X4: when get_schemas returns, it has asked for the schema once and then
    sent, for each class of the schema in order, one query for the ids of
    that class with the limit 100000; the dictionary it returns has exactly
    the schema's class names as keys, and the manager is as before. *)
Theorem get_schemas_counts_every_class (s s' : State) (c : Client)
    (schemas : gmap string nat) :
  client (self s) = Some c ->
  get_schemas client_schema_get client_query_do s = (Returned schemas, s') ->
  exists schema_info classes items names,
    fst (client_schema_get c (ext (world s))) = Returned schema_info
    /\ py_getitem schema_info "classes" = Returned classes
    /\ py_iter classes = Returned items
    /\ Forall2 (fun item name => py_getitem item "class" = Returned (PyStr name))
               items names
    /\ trace (world s')
       = trace (world s)
         ++ EvSchemaGet c :: map (fun name => EvQuery c (count_query name)) names
    /\ dom schemas = list_to_set names
    /\ self s' = self s.
Proof.
  intros Hc Hrun. destruct s as [m w]. destruct w as [env oa sp ssl x tr].
  cbn [self world] in Hc. unfold get_schemas, self_client at 1 in Hrun.
  revert Hrun. run_method. rewrite Hc. run_method.
  destruct (client_schema_get c x) as [[schema_info|err] x1]; run_method;
    [|discriminate].
  destruct (py_getitem schema_info "classes") as [classes|err] eqn:Hclasses;
    run_method; [|discriminate].
  destruct (py_iter classes) as [items|err] eqn:Hitems; run_method; [|discriminate].
  intros Hloop.
  apply (count_loop_returns items c) in Hloop; [|exact Hc].
  destruct Hloop as (names & Hnames & Htr & Hdom & Hself).
  exists schema_info, classes, items, names.
  cbn [world trace self set_ext set_trace] in Htr, Hself.
  repeat apply conj; try reflexivity; try assumption.
  - rewrite Htr, <- app_assoc. reflexivity.
  - rewrite Hdom, dom_empty_L. apply (left_id_L ∅ (∪)).
Qed.

Lemma count_loop_capped (items : list PyVal) (c : Client) :
  honours_limit client_query_do ->
  (forall c q x response x' v,
      client_query_do c q x = (Returned response, x') ->
      response_objects response (q_class_name q) = Returned v ->
      exists l, v = PyList l) ->
  forall (acc r : gmap string nat) (s s' : State),
    client (self s) = Some c ->
    map_Forall (fun _ n => (Z.of_nat n <= 100000)%Z) acc ->
    fold_each items acc count_class s = (Returned r, s') ->
    map_Forall (fun _ n => (Z.of_nat n <= 100000)%Z) r.
Proof.
  intros Hlimit Hlists.
  induction items as [|item rest IH]; intros acc r s s' Hc Hacc Hrun.
  - cbn in Hrun. injection Hrun as Hr Hs. subst r. exact Hacc.
  - pose proof (count_class_returns item acc) as Hreturns.
    revert Hrun.
    change (fold_each (item :: rest) acc count_class s)
      with (match count_class item acc s with
            | (Returned a, s1) => fold_each rest a count_class s1
            | (Raised e, s1) => (Raised e, s1)
            end).
    destruct (count_class item acc s) as [[acc1|err] s1] eqn:Hstep;
      [|discriminate].
    intros Hrun.
    destruct (Hreturns acc1 s s1 c Hc Hstep)
      as (name & response & objects & n & Hname & Hdo & Hobj & Hlen & Hacc1 & Htr & Hself).
    apply (IH acc1 r s1 s'); [congruence| |exact Hrun].
    subst acc1. apply map_Forall_insert_2; [|exact Hacc].
    destruct (Hlists _ _ _ _ _ _ Hdo Hobj) as [l ->].
    cbn in Hlen. injection Hlen as <-.
    exact (Hlimit _ _ _ _ _ 100000%Z l Hdo eq_refl Hobj).
Qed.

(** X5: with a store that answers a query with a list no longer than the
    query's limit, no count that get_schemas returns is above 100000: a class
    holding more objects is reported with at most that many. *)
Theorem get_schemas_counts_capped (s s' : State) (c : Client)
    (schemas : gmap string nat) :
  honours_limit client_query_do ->
  (forall c q x response x' v,
      client_query_do c q x = (Returned response, x') ->
      response_objects response (q_class_name q) = Returned v ->
      exists l, v = PyList l) ->
  client (self s) = Some c ->
  get_schemas client_schema_get client_query_do s = (Returned schemas, s') ->
  forall name n, schemas !! name = Some n -> (Z.of_nat n <= 100000)%Z.
Proof.
  intros Hlimit Hlists Hc Hrun. destruct s as [m w]. destruct w as [env oa sp ssl x tr].
  cbn [self world] in Hc. unfold get_schemas, self_client at 1 in Hrun.
  revert Hrun. run_method. rewrite Hc. run_method.
  destruct (client_schema_get c x) as [[schema_info|err] x1]; run_method;
    [|discriminate].
  destruct (py_getitem schema_info "classes") as [classes|err]; run_method;
    [|discriminate].
  destruct (py_iter classes) as [items|err]; run_method; [|discriminate].
  intros Hloop name n Hlookup.
  apply (count_loop_capped items c Hlimit Hlists) in Hloop;
    [exact (Hloop name n Hlookup) | exact Hc | apply map_Forall_empty].
Qed.
End Schemas.

(** ** What setup_client and the constructor leave behind *)

Section Construction.
Context (weaviate_Client : ClientArgs -> Ext -> Outcome Client * Ext).
Context (init_schemas :
           option Client -> string -> bool -> bool -> Ext -> Outcome PyVal * Ext).
Context (VECTORIZERS EMBEDDINGS : list string).
Context (ReaderManager_new : Registry.t (@Reader Ext DocList)).
Context (ChunkerManager_new : Registry.t (@Chunker Ext DocList)).
Context (EmbeddingManager_new : Registry.t (@Embedder Ext Client DocList)).

Ltac setup_cases env oa has :=
  unfold setup_client; run_setup;
  destruct oa as [?key0|]; run_setup;
  destruct (String.eqb (default EmptyString (env !! "OPENAI_API_KEY")) EmptyString);
  run_setup;
  destruct (String.eqb (default EmptyString (env !! "VERBA_URL")) EmptyString);
  run_setup;
  destruct has; run_setup;
  try match goal with
    | |- context [weaviate_Client ?a ?x] =>
        destruct (weaviate_Client a x) as [[?c|?e0] ?x']
    end; run_setup.

Ltac not_in_events :=
  cbn [In app]; intros Hin;
  repeat (destruct Hin as [Hin|Hin]; [discriminate Hin|]); exact Hin.

(** X6: setup_client never logs that the connection failed: when it returns
    it returns a client, never None, and its last message is Connected to
    Weaviate; a connection that cannot be made shows as the exception it
    raises, after which Connected to Weaviate was not logged. *)
Theorem setup_client_never_reports_failure (s : State) :
  exists evs,
    trace (world (snd (setup_client weaviate_Client s))) = trace (world s) ++ evs
    /\ ~ In (EvMsg fail "Connection to Weaviate failed") evs
    /\ match fst (setup_client weaviate_Client s) with
       | Returned cl =>
           is_Some cl
           /\ exists before, evs = before ++ [EvMsg good "Connected to Weaviate"]
       | Raised _ => ~ In (EvMsg good "Connected to Weaviate") evs
       end.
Proof.
  destruct s as [m w]. destruct w as [env oa sp ssl x tr].
  destruct ssl as [has dflt].
  setup_cases env oa has.
  all: eexists; cbn [world trace set_ext set_trace set_ssl_module fst snd];
    (split; [rewrite <- ?app_assoc; reflexivity|]);
    (split; [not_in_events|]);
    first [ not_in_events
          | split; [eauto|];
            cbn [app];
            match goal with
            | |- exists before, ?l = before ++ [_] =>
                exists (removelast l); reflexivity
            end ].
Qed.

(** X7: what setup_client writes, whether it returns or raises: the flag
    OPENAI_API_KEY says that openai was imported and the key is set; the flag
    VERBA_URL is set to True for a remote cluster and not written otherwise;
    weaviate_type names the branch taken; openai.api_key is overwritten with
    the key when there is one; and the process-wide https context of ssl is
    replaced by the unverified one in the embedded branch only. *)
Theorem setup_client_side_effects (s : State) :
  let env := environ (world s) in
  let remote := negb (String.eqb (default EmptyString (env !! "VERBA_URL")) EmptyString) in
  let openai_key := default EmptyString (env !! "OPENAI_API_KEY") in
  let has_key := negb (String.eqb openai_key EmptyString) in
  let s' := snd (setup_client weaviate_Client s) in
  environment_variables (self s')
  = (let flags := <["OPENAI_API_KEY" :=
                      match openai_module (world s) with
                      | Some _ => has_key
                      | None => false
                      end]> (environment_variables (self s)) in
     if remote then <["VERBA_URL" := true]> flags else flags)
  /\ weaviate_type (self s')
     = (if remote then "Weaviate Cluster" else "Weaviate Embedded")
  /\ openai_module (world s')
     = match openai_module (world s) with
       | Some v => Some (if has_key then PyStr openai_key else v)
       | None => None
       end
  /\ ssl_module (world s')
     = (if remote then ssl_module (world s)
        else if has_create_unverified_context (ssl_module (world s))
             then {| has_create_unverified_context := true;
                     default_https_context_unverified := true |}
             else ssl_module (world s))
  /\ client (self s') = client (self s)
  /\ installed_libraries (self s') = installed_libraries (self s)
  /\ environ (world s') = environ (world s).
Proof.
  destruct s as [m w]. destruct w as [env oa sp ssl x tr].
  destruct ssl as [has dflt]. destruct m as [rm cm em ev il wt cl].
  cbv zeta. cbn [world self environ openai_module ssl_module
                 has_create_unverified_context].
  setup_cases env oa has.
  all: cbn; repeat apply conj; reflexivity.
Qed.

Ltac connect_cases env oa has sp :=
  unfold init_connect_and_verify, verify_installed_libraries, verify_variables,
    setup_client;
  run_setup;
  destruct oa as [?key0|]; run_setup;
  destruct (String.eqb (default EmptyString (env !! "OPENAI_API_KEY")) EmptyString)
    eqn:Hkey;
  run_setup;
  destruct (String.eqb (default EmptyString (env !! "VERBA_URL")) EmptyString);
  run_setup;
  destruct has; run_setup;
  try match goal with
    | |- context [weaviate_Client ?a ?x] =>
        destruct (weaviate_Client a x) as [[?c|?e0] ?x']
    end; run_setup;
  destruct sp; run_setup;
  rewrite ?Hkey; run_setup.

Lemma init_connect_and_verify_flags (s0 s1 : State) :
  init_connect_and_verify weaviate_Client s0 = (Returned tt, s1) ->
  let env := environ (world s0) in
  let remote := negb (String.eqb (default EmptyString (env !! "VERBA_URL")) EmptyString) in
  let has_key :=
    negb (String.eqb (default EmptyString (env !! "OPENAI_API_KEY")) EmptyString) in
  environment_variables (self s1)
  = <["OPENAI_API_KEY" := has_key]>
      (if remote then <["VERBA_URL" := true]> (environment_variables (self s0))
       else environment_variables (self s0))
  /\ installed_libraries (self s1)
     = <["spacy" := spacy_importable (world s0)]> (installed_libraries (self s0))
  /\ weaviate_type (self s1)
     = (if remote then "Weaviate Cluster" else "Weaviate Embedded")
  /\ reader_manager (self s1) = reader_manager (self s0)
  /\ chunker_manager (self s1) = chunker_manager (self s0)
  /\ embedder_manager (self s1) = embedder_manager (self s0).
Proof.
  destruct s0 as [m w]. destruct w as [env oa sp ssl x tr].
  destruct ssl as [has dflt]. destruct m as [rm cm em ev il wt cl].
  cbv zeta. cbn [world self environ spacy_importable environment_variables
                 installed_libraries reader_manager chunker_manager
                 embedder_manager].
  connect_cases env oa has sp.
  all: try discriminate.
  all: intros [= <-]; cbn; repeat apply conj; try reflexivity.
  all: rewrite ?(insert_insert_ne _ "VERBA_URL" "OPENAI_API_KEY") by discriminate;
    rewrite ?insert_insert_eq; reflexivity.
Qed.

(** X8: the manager a construction returns: the flag OPENAI_API_KEY says that
    the environment variable is set, whether or not openai could be imported
    (verify_variables overwrites what setup_client wrote); the flag VERBA_URL
    is True for a remote cluster and absent otherwise; spacy says whether
    spacy could be imported; weaviate_type names the branch; the client is
    there; and the three managers are the fresh ones. *)
Theorem constructed_manager (w : World) (m : VerbaManager) :
  fst (__init__ weaviate_Client init_schemas VECTORIZERS EMBEDDINGS
         ReaderManager_new ChunkerManager_new EmbeddingManager_new w)
  = Returned m ->
  let remote :=
    negb (String.eqb (default EmptyString (environ w !! "VERBA_URL")) EmptyString) in
  let has_key :=
    negb (String.eqb (default EmptyString (environ w !! "OPENAI_API_KEY")) EmptyString) in
  environment_variables m
  = <["OPENAI_API_KEY" := has_key]>
      (if remote then {["VERBA_URL" := true]} else ∅)
  /\ installed_libraries m = {["spacy" := spacy_importable w]}
  /\ weaviate_type m = (if remote then "Weaviate Cluster" else "Weaviate Embedded")
  /\ is_Some (client m)
  /\ reader_manager m = ReaderManager_new
  /\ chunker_manager m = ChunkerManager_new
  /\ embedder_manager m = EmbeddingManager_new.
Proof.
  unfold __init__, init_body. unfold bind at 1.
  destruct (init_connect_and_verify weaviate_Client _) as [[[]|e0] s1] eqn:Hpre;
    [|discriminate].
  pose proof (keeps_self_bind _ _
                (keeps_self_for_each VECTORIZERS _
                   (keeps_self_call_init_schemas init_schemas))
                (fun _ => keeps_self_for_each EMBEDDINGS _
                   (keeps_self_call_init_schemas init_schemas)) s1) as Hkeep.
  unfold init_all_schemas.
  destruct (bind _ _ s1) as [[u|e0] s2]; [|discriminate].
  intros [= <-]. cbn [snd] in Hkeep. rewrite Hkeep.
  pose proof (init_connect_and_verify_client weaviate_Client _ _ Hpre) as Hclient.
  destruct (init_connect_and_verify_flags _ _ Hpre)
    as (Henv & Hlib & Htype & Hrm & Hcm & Hem).
  cbn [self world self_before_setup environment_variables installed_libraries
       reader_manager chunker_manager embedder_manager] in Henv, Hlib, Hrm, Hcm, Hem.
  cbv zeta. repeat apply conj; assumption.
Qed.

Lemma init_connect_and_verify_events (s0 : State) :
  exists evs,
    trace (world (snd (init_connect_and_verify weaviate_Client s0)))
    = trace (world s0) ++ evs
    /\ List.filter is_init_schemas evs = [].
Proof.
  destruct s0 as [m w]. destruct w as [env oa sp ssl x tr].
  destruct ssl as [has dflt].
  connect_cases env oa has sp.
  all: eexists; cbn [world trace set_ext set_trace set_ssl_module snd];
    (split; [rewrite <- ?app_assoc; reflexivity|]); reflexivity.
Qed.

Lemma init_loop_prefix (l : list string) :
  forall s : State,
  exists k x',
    snd (for_each l (call_init_schemas init_schemas) s)
    = {| self := self s;
         world := set_trace
                    (trace (world s)
                     ++ map (fun v => EvInitSchemas (client (self s)) v false true)
                          (take k l))
                    (set_ext x' (world s)) |}
    /\ (is_raised (fst (for_each l (call_init_schemas init_schemas) s)) = false ->
        k = List.length l).
Proof.
  induction l as [|v rest IH]; intros s.
  - exists 0, (ext (world s)). destruct s as [m w]. destruct w. cbn.
    rewrite app_nil_r. split; reflexivity.
  - cbn [for_each]. unfold call_init_schemas at 1 3. run_method.
    destruct (init_schemas (client (self s)) v false true (ext (world s)))
      as [[r|e] x1]; run_method.
    + match goal with
      | |- context [for_each rest _ ?s1] => destruct (IH s1) as (k & x' & Hsnd & Hlen)
      end.
      exists (S k), x'. rewrite Hsnd. destruct s as [m w]. destruct w.
      cbn [self world trace set_trace set_ext ext environ openai_module
           spacy_importable ssl_module map take].
      rewrite <- app_assoc. split; [reflexivity|].
      intros Hok. cbn [List.length]. f_equal. exact (Hlen Hok).
    + exists 1, x1. destruct s as [m w]. destruct w.
      cbn [self world trace set_trace set_ext ext environ openai_module
           spacy_importable ssl_module map take is_raised fst snd].
      split; [reflexivity | discriminate].
Qed.

(** ** Connection failure *)

Lemma setup_client_attempt (s : State) :
  (exists evs,
      trace (world (snd (setup_client weaviate_Client s))) = trace (world s) ++ evs
      /\ fst (setup_client weaviate_Client s) = Raised (UnboundLocalError "openai")
      /\ List.filter is_new_client evs = []
      /\ List.filter is_init_schemas evs = [])
  \/ (exists before args,
        match weaviate_Client args (ext (world s)) with
        | (Returned c, x1) =>
            fst (setup_client weaviate_Client s) = Returned (Some c)
            /\ trace (world (snd (setup_client weaviate_Client s)))
               = trace (world s)
                 ++ before ++ [EvNewClient args; EvMsg good "Connected to Weaviate"]
            /\ ext (world (snd (setup_client weaviate_Client s))) = x1
        | (Raised e, x1) =>
            fst (setup_client weaviate_Client s) = Raised e
            /\ trace (world (snd (setup_client weaviate_Client s)))
               = trace (world s) ++ before ++ [EvNewClient args]
            /\ ext (world (snd (setup_client weaviate_Client s))) = x1
        end
        /\ List.filter is_new_client before = []
        /\ List.filter is_init_schemas before = []).
Proof.
  destruct s as [m w]. destruct w as [env oa sp ssl x tr].
  destruct ssl as [has dflt]. cbn [world ext trace].
  unfold setup_client; run_setup;
    destruct oa as [key0|]; run_setup;
    destruct (String.eqb (default EmptyString (env !! "OPENAI_API_KEY")) EmptyString);
    run_setup;
    destruct (String.eqb (default EmptyString (env !! "VERBA_URL")) EmptyString);
    run_setup;
    destruct has; run_setup;
    lazymatch goal with
    | |- context [weaviate_Client ?a x] =>
        right;
        destruct (weaviate_Client a x) as [[c|e0] x1] eqn:Hcall; run_setup;
        cbn [world trace ext set_ext set_trace set_ssl_module fst snd];
        rewrite <- ?app_assoc; cbn [app];
        [ lazymatch goal with
          | |- context [tr ++ ?l] => exists (removelast (removelast l)), a
          end
        | lazymatch goal with
          | |- context [tr ++ ?l] => exists (removelast l), a
          end ];
        rewrite Hcall; repeat apply conj; reflexivity
    | |- _ =>
        left; eexists;
        cbn [world trace ext set_ext set_trace set_ssl_module fst snd];
        split; [rewrite <- ?app_assoc; reflexivity|];
        repeat apply conj; reflexivity
    end.
Qed.

Lemma init_connect_and_verify_after_setup (s0 s' : State) (cl : option Client) :
  setup_client weaviate_Client s0 = (Returned cl, s') ->
  exists s1,
    init_connect_and_verify weaviate_Client s0 = (Returned tt, s1)
    /\ trace (world s1) = trace (world s')
    /\ ext (world s1) = ext (world s')
    /\ client (self s1) = cl.
Proof.
  intros Hsetup. unfold init_connect_and_verify. unfold bind at 1.
  rewrite Hsetup. destruct s' as [m w]. destruct w as [env oa sp ssl x tr].
  unfold verify_installed_libraries, verify_variables. run_setup.
  destruct sp; run_setup;
    destruct (String.eqb (default EmptyString (env !! "OPENAI_API_KEY")) EmptyString);
    run_setup; eexists; repeat apply conj; reflexivity.
Qed.

Lemma in_events_filter (P : Event -> bool) (ev : Event) (evs : list Event) :
  In ev evs -> P ev = true -> In ev (List.filter P evs).
Proof. intros Hin HP. apply List.filter_In. split; assumption. Qed.

(** C5: a manager that was constructed has a client.  When the connection
    this run attempts raises, the constructor raises that same exception:
    the attempt is the run's only one and its last event, so nothing is
    retried, Connected to Weaviate is not logged and no schema setup is
    made.  A run that attempts no connection raised at the name openai
    before it, without a schema setup either. *)
Theorem connection_failure_is_fatal (w : World) :
  (forall m,
      fst (__init__ weaviate_Client init_schemas VECTORIZERS EMBEDDINGS
             ReaderManager_new ChunkerManager_new EmbeddingManager_new w)
      = Returned m ->
      is_Some (client m))
  /\ exists evs,
      trace (snd (__init__ weaviate_Client init_schemas VECTORIZERS EMBEDDINGS
                    ReaderManager_new ChunkerManager_new EmbeddingManager_new w))
      = trace w ++ evs
      /\ (forall args e x',
            In (EvNewClient args) evs ->
            weaviate_Client args (ext w) = (Raised e, x') ->
            fst (__init__ weaviate_Client init_schemas VECTORIZERS EMBEDDINGS
                   ReaderManager_new ChunkerManager_new EmbeddingManager_new w)
            = Raised e
            /\ ext (snd (__init__ weaviate_Client init_schemas VECTORIZERS
                           EMBEDDINGS ReaderManager_new ChunkerManager_new
                           EmbeddingManager_new w)) = x'
            /\ exists before,
                evs = before ++ [EvNewClient args]
                /\ List.filter is_new_client before = []
                /\ List.filter is_init_schemas before = [])
      /\ (List.filter is_new_client evs = [] ->
          fst (__init__ weaviate_Client init_schemas VECTORIZERS EMBEDDINGS
                 ReaderManager_new ChunkerManager_new EmbeddingManager_new w)
          = Raised (UnboundLocalError "openai")
          /\ List.filter is_init_schemas evs = []).
Proof.
  split.
  - intros m. unfold __init__, init_body. unfold bind at 1.
    destruct (init_connect_and_verify weaviate_Client _) as [[[]|e0] s1] eqn:Hpre;
      [|discriminate].
    apply init_connect_and_verify_client in Hpre.
    pose proof (keeps_self_bind _ _
                  (keeps_self_for_each VECTORIZERS _
                     (keeps_self_call_init_schemas init_schemas))
                  (fun _ => keeps_self_for_each EMBEDDINGS _
                     (keeps_self_call_init_schemas init_schemas)) s1) as Hkeep.
    unfold init_all_schemas.
    destruct (bind _ _ s1) as [[u|e0] s2]; [|discriminate].
    intros [= <-]. cbn [snd] in Hkeep. rewrite Hkeep. exact Hpre.
  - set (s0 := {| self := self_before_setup ReaderManager_new ChunkerManager_new
                            EmbeddingManager_new;
                  world := w |}).
    destruct (setup_client_attempt s0)
      as [(evs & Htrace & Hraised & Hnone & Hschema)
         |(before & args0 & Hattempt & Hbefore & Hschema)].
    + destruct (setup_client weaviate_Client s0) as [[cl|e0] s'] eqn:Hsetup;
        cbn [fst snd] in Hraised, Htrace; [discriminate Hraised|].
      injection Hraised as ->.
      rewrite (init_raises_with_setup_client weaviate_Client init_schemas
                 VECTORIZERS EMBEDDINGS ReaderManager_new ChunkerManager_new
                 EmbeddingManager_new w _ s' Hsetup).
      cbn [fst snd]. exists evs. repeat apply conj.
      * exact Htrace.
      * intros args e x' Hin _. exfalso.
        apply (in_events_filter is_new_client) in Hin; [|reflexivity].
        rewrite Hnone in Hin. exact Hin.
      * intros _. split; [reflexivity | exact Hschema].
    + change (ext (world s0)) with (ext w) in Hattempt.
      destruct (weaviate_Client args0 (ext w)) as [[c|e0] x1] eqn:Hcall;
        destruct Hattempt as (Hfst & Htrace & Hext);
        destruct (setup_client weaviate_Client s0) as [[cl|e1] s'] eqn:Hsetup;
        cbn [fst snd] in Hfst, Htrace, Hext; try discriminate Hfst;
        injection Hfst as ->.
      * destruct (init_connect_and_verify_after_setup s0 s' (Some c) Hsetup)
          as (s1 & Hpre & Htr1 & Hx1 & Hcl1).
        destruct (init_loop_prefix (VECTORIZERS ++ EMBEDDINGS) s1)
          as (k & x' & Hsnd & _).
        rewrite (init_after_connect weaviate_Client init_schemas VECTORIZERS
                   EMBEDDINGS ReaderManager_new ChunkerManager_new
                   EmbeddingManager_new w s1 Hpre).
        assert (Hworld :
                  trace (snd (match for_each (VECTORIZERS ++ EMBEDDINGS)
                                      (call_init_schemas init_schemas) s1 with
                              | (Returned _, s) => (Returned (self s), world s)
                              | (Raised e, s) => (Raised e, world s)
                              end))
                  = trace w
                    ++ (before ++ [EvNewClient args0; EvMsg good "Connected to Weaviate"])
                    ++ map (fun v => EvInitSchemas (client (self s1)) v false true)
                         (take k (VECTORIZERS ++ EMBEDDINGS))).
        { destruct (for_each (VECTORIZERS ++ EMBEDDINGS) _ s1) as [[u|e1] s2];
            cbn [snd] in Hsnd |- *; subst s2;
            cbn [world trace set_trace]; rewrite Htr1, Htrace;
            cbn [world trace]; rewrite <- !app_assoc; reflexivity. }
        eexists. split; [exact Hworld|]. split.
        -- intros args e x2 Hin Hdown. exfalso.
           apply in_app_or in Hin as [Hin|Hin].
           ++ apply in_app_or in Hin as [Hin|Hin].
              ** apply (in_events_filter is_new_client) in Hin; [|reflexivity].
                 rewrite Hbefore in Hin. exact Hin.
              ** destruct Hin as [Heq|[Heq|[]]]; [|discriminate Heq].
                 injection Heq as <-. rewrite Hcall in Hdown. discriminate Hdown.
           ++ apply in_map_iff in Hin as (v & Heq & _). discriminate Heq.
        -- intros Hno. exfalso.
           assert (Hin : In (EvNewClient args0)
                            ((before ++ [EvNewClient args0;
                                         EvMsg good "Connected to Weaviate"])
                             ++ map (fun v => EvInitSchemas (client (self s1)) v false true)
                                  (take k (VECTORIZERS ++ EMBEDDINGS))))
             by (apply in_or_app; left; apply in_or_app; right; left; reflexivity).
           apply (in_events_filter is_new_client) in Hin; [|reflexivity].
           rewrite Hno in Hin. exact Hin.
      * rewrite (init_raises_with_setup_client weaviate_Client init_schemas
                   VECTORIZERS EMBEDDINGS ReaderManager_new ChunkerManager_new
                   EmbeddingManager_new w _ s' Hsetup).
        cbn [fst snd]. exists (before ++ [EvNewClient args0]).
        split; [exact Htrace|]. split.
        -- intros args e x2 Hin Hdown.
           assert (args = args0) as ->.
           { apply in_app_or in Hin as [Hin|Hin].
             - exfalso. apply (in_events_filter is_new_client) in Hin; [|reflexivity].
               rewrite Hbefore in Hin. exact Hin.
             - destruct Hin as [Heq|[]]. injection Heq as <-. reflexivity. }
           rewrite Hcall in Hdown. injection Hdown as <- <-.
           repeat apply conj; [reflexivity | exact Hext|].
           exists before. repeat apply conj; [reflexivity | exact Hbefore | exact Hschema].
        -- intros Hno. exfalso.
           assert (Hin : In (EvNewClient args0) (before ++ [EvNewClient args0]))
             by (apply in_or_app; right; left; reflexivity).
           apply (in_events_filter is_new_client) in Hin; [|reflexivity].
           rewrite Hno in Hin. exact Hin.
Qed.

(** X9: whatever the collaborators do, the schema setups the constructor
    attempts are a prefix of VECTORIZERS followed by EMBEDDINGS, in that
    order, each once, with force False and check True, and all with the same
    client; none is attempted before there is a client, and all are when the
    constructor returns. *)
Theorem schema_setup_calls (w : World) :
  exists evs cl k,
    trace (snd (__init__ weaviate_Client init_schemas VECTORIZERS EMBEDDINGS
                  ReaderManager_new ChunkerManager_new EmbeddingManager_new w))
    = trace w ++ evs
      ++ map (fun v => EvInitSchemas cl v false true)
           (take k (VECTORIZERS ++ EMBEDDINGS))
    /\ List.filter is_init_schemas evs = []
    /\ (k = 0 \/ is_Some cl)
    /\ (is_raised (fst (__init__ weaviate_Client init_schemas VECTORIZERS EMBEDDINGS
                          ReaderManager_new ChunkerManager_new
                          EmbeddingManager_new w)) = false ->
        k = List.length (VECTORIZERS ++ EMBEDDINGS)).
Proof.
  destruct (init_connect_and_verify_events
              {| self := self_before_setup ReaderManager_new ChunkerManager_new
                           EmbeddingManager_new;
                 world := w |}) as (evs & Htrace & Hnone).
  unfold __init__, init_body. unfold bind at 1 2.
  destruct (init_connect_and_verify weaviate_Client _) as [[[]|e0] s1] eqn:Hpre.
  - pose proof (init_connect_and_verify_client weaviate_Client _ _ Hpre) as Hclient.
    rewrite !(init_all_schemas_for_each init_schemas VECTORIZERS EMBEDDINGS s1).
    destruct (init_loop_prefix (VECTORIZERS ++ EMBEDDINGS) s1)
      as (k & x' & Hsnd & Hlen).
    exists evs, (client (self s1)), k.
    destruct (for_each (VECTORIZERS ++ EMBEDDINGS) _ s1) as [[u|e0] s2];
      cbn [fst snd is_raised] in *; subst s2;
      cbn [world trace set_trace] in *; rewrite Htrace, <- app_assoc;
      repeat apply conj; auto; discriminate.
  - exists evs, None, 0. cbn [fst snd is_raised take map] in *.
    rewrite Htrace, app_nil_r. repeat apply conj; auto; discriminate.
Qed.
End Construction.
End Facts.

(** * The sample installation *)

Lemma sample_store_honours_limit : honours_limit Sample.query_do.
Proof.
  intros c q x response x' n l Hdo Hlimit Hobjects.
  unfold Sample.query_do in Hdo. rewrite Hlimit in Hdo.
  destruct (Z.ltb_spec n 0) as [Hneg|Hpos]; [discriminate Hdo|].
  injection Hdo as <- <-.
  unfold response_objects in Hobjects. cbn in Hobjects.
  rewrite String.eqb_refl in Hobjects. injection Hobjects as <-.
  rewrite length_take. lia.
Qed.

Lemma import_data_success_witness :
  Registry.selected (reader_manager (self Sample.state)) = Some Sample.simple_reader
  /\ Registry.selected (chunker_manager (self Sample.state)) = Some Sample.word_chunker
  /\ Registry.selected (embedder_manager (self Sample.state)) = Some Sample.minilm
  /\ import_data Sample.batch 100 50 Sample.state
     = (Returned (Some ["chunked alpha"; "chunked beta"]),
        {| self := self Sample.state;
           world := set_trace
                      [EvLoad Sample.batch;
                       EvChunk ["alpha"; "beta"] 100 50;
                       EvEmbed ["chunked alpha"; "chunked beta"] (Some "embedded");
                       EvMsg good "Embedding successful"]
                      (set_ext ["chunked alpha"; "chunked beta"]
                         (world Sample.state)) |}).
Proof.
  refine (conj eq_refl (conj eq_refl (conj eq_refl _))).
  apply (import_data_success Sample.state Sample.batch 100 50
           Sample.simple_reader Sample.word_chunker Sample.minilm
           ["alpha"; "beta"] ["chunked alpha"; "chunked beta"]
           [] [] ["chunked alpha"; "chunked beta"]);
    reflexivity.
Defined.

Lemma import_data_failure_witness :
  Registry.selected (embedder_manager (self Sample.state_ada)) = Some Sample.ada
  /\ embedder_embed Sample.ada ["chunked alpha"; "chunked beta"] (Some "embedded") []
     = (Returned false, ["chunked alpha"])
  /\ import_data Sample.batch 100 50 Sample.state_ada
     = (Returned None,
        {| self := self Sample.state_ada;
           world := set_trace
                      [EvLoad Sample.batch;
                       EvChunk ["alpha"; "beta"] 100 50;
                       EvEmbed ["chunked alpha"; "chunked beta"] (Some "embedded");
                       EvMsg fail "Embedding failed"]
                      (set_ext ["chunked alpha"] (world Sample.state_ada)) |}).
Proof.
  refine (conj eq_refl (conj eq_refl _)).
  apply (import_data_failure Sample.state_ada Sample.batch 100 50
           Sample.simple_reader Sample.word_chunker Sample.ada
           ["alpha"; "beta"] ["chunked alpha"; "chunked beta"]
           [] [] ["chunked alpha"]);
    reflexivity.
Defined.

Lemma select_strategy_spec_witness :
  fst (embedder_set_embedder "ADAEmbedder" Sample.state) = Returned true
  /\ fst (embedder_set_embedder "Ada" Sample.state) = Returned false
  /\ snd (embedder_set_embedder "Ada" Sample.state) = Sample.state.
Proof.
  destruct (select_strategy_spec Sample.state "Ada")
    as (_ & _ & found & Hfound & _ & _ & Hkept & _).
  refine (conj eq_refl (conj eq_refl _)).
  apply Hkept. vm_compute in Hfound. congruence.
Defined.

Lemma class_name_rule_witness :
  Registry.selected (embedder_manager (self Sample.state_ada)) = Some Sample.ada
  /\ client (self Sample.state_ada) = Some "embedded"
  /\ class_name_for (vectorizer Sample.ada) = "Document_textvecopenai"
  /\ trace (world (snd (retrieve_document Sample.get_by_id "7" Sample.state_ada)))
     = [EvGetById "embedded" "7" "Document_textvecopenai"].
Proof.
  refine (conj eq_refl (conj eq_refl (conj eq_refl _))).
  apply (class_name_rule Sample.query_do Sample.get_by_id Sample.state_ada
           Sample.ada "embedded" "7"); reflexivity.
Defined.

Lemma retrieve_all_documents_bounded_witness :
  honours_limit Sample.query_do
  /\ Registry.selected (embedder_manager (self Sample.state)) = Some Sample.minilm
  /\ client (self Sample.state) = Some "embedded"
  /\ trace (world (snd (retrieve_all_documents Sample.query_do Sample.state)))
     = [EvPrint "Document_MiniLM";
        EvQuery "embedded"
          {| q_class_name := "Document_MiniLM";
             q_properties := ["doc_name"; "doc_type"; "doc_link"];
             q_additional := ["id"];
             q_limit := Some 10000%Z |}].
Proof.
  split; [exact sample_store_honours_limit|].
  refine (conj eq_refl (conj eq_refl _)).
  apply (retrieve_all_documents_bounded Sample.query_do Sample.state
           Sample.minilm "embedded" sample_store_honours_limit eq_refl eq_refl).
Defined.

Lemma schema_setup_at_construction_witness :
  exists s1,
    init_connect_and_verify Sample.connect (Sample.fresh Sample.world_embedded)
    = (Returned tt, s1)
    /\ client (self s1) = Some "embedded"
    /\ ext (world s1) = []
    /\ setups_return Sample.init_schemas (Some "embedded")
         (Sample.VECTORIZERS ++ Sample.EMBEDDINGS) [] []
    /\ fst (Sample.init_schemas (Some "embedded") "text2vec-cohere" false true [])
       = Returned (PyBool false)
    /\ __init__ Sample.connect Sample.init_schemas Sample.VECTORIZERS
         Sample.EMBEDDINGS Sample.readers Sample.chunkers Sample.embedders
         Sample.world_embedded
       = (Returned (self s1),
          set_trace
            (trace (world s1)
             ++ [EvInitSchemas (Some "embedded") "text2vec-openai" false true;
                 EvInitSchemas (Some "embedded") "text2vec-cohere" false true;
                 EvInitSchemas (Some "embedded") "MiniLM" false true])
            (set_ext [] (world s1)))
    /\ setups_return Sample.init_schemas_small_store (Some "embedded")
         ["text2vec-openai"; "text2vec-cohere"] []
         ["class Document_textvecopenai"; "class Document_textveccohere"]
    /\ Sample.init_schemas_small_store (Some "embedded") "MiniLM" false true
         ["class Document_textvecopenai"; "class Document_textveccohere"]
       = (Raised (LibraryError "no room for MiniLM"),
          ["class Document_textvecopenai"; "class Document_textveccohere"])
    /\ __init__ Sample.connect Sample.init_schemas_small_store Sample.VECTORIZERS
         Sample.EMBEDDINGS Sample.readers Sample.chunkers Sample.embedders
         Sample.world_embedded
       = (Raised (LibraryError "no room for MiniLM"),
          set_trace
            (trace (world s1)
             ++ [EvInitSchemas (Some "embedded") "text2vec-openai" false true;
                 EvInitSchemas (Some "embedded") "text2vec-cohere" false true;
                 EvInitSchemas (Some "embedded") "MiniLM" false true])
            (set_ext ["class Document_textvecopenai"; "class Document_textveccohere"]
               (world s1))).
Proof.
  set (s1 := snd (init_connect_and_verify Sample.connect
                    (Sample.fresh Sample.world_embedded))).
  exists s1.
  assert (Hpre : init_connect_and_verify Sample.connect
                   (Sample.fresh Sample.world_embedded) = (Returned tt, s1))
    by (vm_compute; reflexivity).
  assert (Hcl : client (self s1) = Some "embedded") by (vm_compute; reflexivity).
  assert (Hext : ext (world s1) = []) by (vm_compute; reflexivity).
  assert (Hall : setups_return Sample.init_schemas (Some "embedded")
                   (Sample.VECTORIZERS ++ Sample.EMBEDDINGS) [] [])
    by (repeat (econstructor; [reflexivity|]); constructor).
  assert (Htwo : setups_return Sample.init_schemas_small_store (Some "embedded")
                   ["text2vec-openai"; "text2vec-cohere"] []
                   ["class Document_textvecopenai"; "class Document_textveccohere"])
    by (repeat (econstructor; [reflexivity|]); constructor).
  destruct (schema_setup_at_construction Sample.connect Sample.init_schemas
              Sample.VECTORIZERS Sample.EMBEDDINGS Sample.readers Sample.chunkers
              Sample.embedders Sample.world_embedded s1 Hpre) as (Hreturns & _ & _).
  destruct (schema_setup_at_construction Sample.connect
              Sample.init_schemas_small_store
              Sample.VECTORIZERS Sample.EMBEDDINGS Sample.readers Sample.chunkers
              Sample.embedders Sample.world_embedded s1 Hpre) as (_ & Hraises & _).
  rewrite Hcl, Hext in Hreturns, Hraises. clearbody s1.
  refine (conj Hpre (conj Hcl (conj Hext (conj Hall (conj eq_refl
            (conj (Hreturns [] Hall) (conj Htwo (conj eq_refl _)))))))).
  exact (Hraises ["text2vec-openai"; "text2vec-cohere"] "MiniLM" []
           (LibraryError "no room for MiniLM") _ _ eq_refl Htwo eq_refl).
Defined.

Lemma connection_failure_is_fatal_witness :
  exists evs args,
    trace (snd (__init__ Sample.connect_remote_down Sample.init_schemas
                  Sample.VECTORIZERS Sample.EMBEDDINGS Sample.readers
                  Sample.chunkers Sample.embedders Sample.world_remote))
    = trace Sample.world_remote ++ evs
    /\ In (EvNewClient args) evs
    /\ url args = Some "https://verba.example"
    /\ Sample.connect_remote_down args (ext Sample.world_remote)
       = (Raised (LibraryError "cannot reach https://verba.example"), [])
    /\ fst (__init__ Sample.connect_remote_down Sample.init_schemas
               Sample.VECTORIZERS Sample.EMBEDDINGS Sample.readers
               Sample.chunkers Sample.embedders Sample.world_remote)
       = Raised (LibraryError "cannot reach https://verba.example").
Proof.
  destruct (proj2 (connection_failure_is_fatal Sample.connect_remote_down
                     Sample.init_schemas Sample.VECTORIZERS Sample.EMBEDDINGS
                     Sample.readers Sample.chunkers Sample.embedders
                     Sample.world_remote))
    as (evs & Htrace & Hfatal & _).
  pose (args := {| url := Some "https://verba.example";
                   additional_headers := {["X-OpenAI-Api-Key" := PyStr "sk-1"]};
                   auth_client_secret := Some {| api_key := "secret" |};
                   embedded_options := None |}).
  assert (Hevents :
            trace (snd (__init__ Sample.connect_remote_down Sample.init_schemas
                          Sample.VECTORIZERS Sample.EMBEDDINGS Sample.readers
                          Sample.chunkers Sample.embedders Sample.world_remote))
            = [EvMsg info "Setting up client";
               EvMsg info "OpenAI API key detected";
               EvNewClient args])
    by (vm_compute; reflexivity).
  assert (Hin : In (EvNewClient args) evs).
  { rewrite Hevents in Htrace.
    change (trace Sample.world_remote ++ evs) with evs in Htrace.
    rewrite <- Htrace. right; right; left. reflexivity. }
  assert (Hdown : Sample.connect_remote_down args (ext Sample.world_remote)
                  = (Raised (LibraryError "cannot reach https://verba.example"), []))
    by reflexivity.
  exists evs, args.
  refine (conj Htrace (conj Hin (conj eq_refl (conj Hdown _)))).
  exact (proj1 (Hfatal args _ _ Hin Hdown)).
Defined.

Lemma embedded_startup_needs_openai_witness :
  environ Sample.world_bare !! "VERBA_URL" = None
  /\ openai_module Sample.world_bare = None
  /\ exists w',
      __init__ Sample.connect Sample.init_schemas Sample.VECTORIZERS
        Sample.EMBEDDINGS Sample.readers Sample.chunkers Sample.embedders
        Sample.world_bare
      = (Raised (UnboundLocalError "openai"), w')
      /\ trace w'
         = [EvMsg info "Setting up client"; EvMsg info "Using Weaviate Embedded"].
Proof.
  refine (conj eq_refl (conj eq_refl _)).
  apply (proj2 (embedded_startup_needs_openai Sample.connect Sample.init_schemas
                  Sample.VECTORIZERS Sample.EMBEDDINGS Sample.readers
                  Sample.chunkers Sample.embedders
                  (Sample.fresh Sample.world_bare) eq_refl eq_refl)).
Defined.

(** C6 at VERBA_URL unset and openai not installed: setup_client takes the
    embedded branch and raises at the name openai; no client is constructed,
    where the claim has a local embedded instance started. *)
Theorem setup_client_embedded_without_openai :
  environ Sample.world_bare !! "VERBA_URL" = None
  /\ openai_module Sample.world_bare = None
  /\ fst (setup_client Sample.connect (Sample.fresh Sample.world_bare))
     = Raised (UnboundLocalError "openai")
  /\ trace (world (snd (setup_client Sample.connect (Sample.fresh Sample.world_bare))))
     = [EvMsg info "Setting up client"; EvMsg info "Using Weaviate Embedded"]
  /\ weaviate_type (self (snd (setup_client Sample.connect
                                 (Sample.fresh Sample.world_bare))))
     = "Weaviate Embedded".
Proof. vm_compute. repeat split. Qed.

(** C4 as stated fails: with a schema setup that raises for the first
    vectorizer, the constructor raises and the remaining identifiers are
    never attempted. *)
Lemma schema_setup_stops_at_raise :
  fst (__init__ Sample.connect Sample.init_schemas_raising Sample.VECTORIZERS
         Sample.EMBEDDINGS Sample.readers Sample.chunkers Sample.embedders
         Sample.world_remote)
  = Raised (LibraryError "schema")
  /\ ~ (forall v, In v (Sample.VECTORIZERS ++ Sample.EMBEDDINGS) ->
        exists c force check,
          In (EvInitSchemas c v force check)
             (trace (snd (__init__ Sample.connect Sample.init_schemas_raising
                            Sample.VECTORIZERS Sample.EMBEDDINGS Sample.readers
                            Sample.chunkers Sample.embedders Sample.world_remote)))).
Proof.
  split; [vm_compute; reflexivity|].
  intros Hall.
  destruct (Hall "MiniLM") as (c & force & check & Hin); [simpl; auto|].
  assert (Hsetups :
            List.filter is_init_schemas
              (trace (snd (__init__ Sample.connect Sample.init_schemas_raising
                             Sample.VECTORIZERS Sample.EMBEDDINGS Sample.readers
                             Sample.chunkers Sample.embedders Sample.world_remote)))
            = [EvInitSchemas (Some "https://verba.example") "text2vec-openai"
                 false true])
    by (vm_compute; reflexivity).
  assert (Hin' : In (EvInitSchemas c "MiniLM" force check)
                    (List.filter is_init_schemas
                       (trace (snd (__init__ Sample.connect
                                      Sample.init_schemas_raising
                                      Sample.VECTORIZERS Sample.EMBEDDINGS
                                      Sample.readers Sample.chunkers
                                      Sample.embedders Sample.world_remote)))))
    by (apply List.filter_In; split; [exact Hin | reflexivity]).
  rewrite Hsetups in Hin'. destruct Hin' as [Heq|[]]. discriminate Heq.
Qed.

(** What init_schemas returns leaves no mark on the constructed manager: a
    setup that reports failure for cohere and one that succeeds throughout
    construct the same manager, with the same trace. *)
Lemma schema_failures_not_recorded :
  fst (Sample.init_schemas (Some "embedded") "text2vec-cohere" false true [])
  = Returned (PyBool false)
  /\ fst (Sample.init_schemas_ok (Some "embedded") "text2vec-cohere" false true [])
     = Returned (PyBool true)
  /\ __init__ Sample.connect Sample.init_schemas Sample.VECTORIZERS
       Sample.EMBEDDINGS Sample.readers Sample.chunkers Sample.embedders
       Sample.world_embedded
     = __init__ Sample.connect Sample.init_schemas_ok Sample.VECTORIZERS
         Sample.EMBEDDINGS Sample.readers Sample.chunkers Sample.embedders
         Sample.world_embedded.
Proof. vm_compute. repeat split. Qed.

(** ** Further properties on the sample installation *)

Lemma sample_store_answers_lists :
  forall c q x response x' v,
    Sample.query_do c q x = (Returned response, x') ->
    response_objects response (q_class_name q) = Returned v ->
    exists l, v = PyList l.
Proof.
  intros c q x response x' v Hdo Hobjects.
  unfold Sample.query_do in Hdo.
  destruct (q_limit q) as [n|]; [destruct (n <? 0)%Z; [discriminate Hdo|]|];
    injection Hdo as <- <-;
    unfold response_objects in Hobjects; cbn in Hobjects;
    rewrite String.eqb_refl in Hobjects; injection Hobjects as <-; eauto.
Qed.

Lemma import_data_stops_at_raise_witness :
  Registry.selected (reader_manager (self Sample.state_broken))
  = Some Sample.simple_reader
  /\ Registry.selected (chunker_manager (self Sample.state_broken))
     = Some Sample.broken_chunker
  /\ Registry.selected (embedder_manager (self Sample.state_broken))
     = Some Sample.minilm
  /\ import_data Sample.batch 100 50 Sample.state_broken
     = (Raised (LibraryError "chunk"),
        {| self := self Sample.state_broken;
           world := set_trace [EvLoad Sample.batch; EvChunk ["alpha"; "beta"] 100 50]
                              (set_ext [] (world Sample.state_broken)) |}).
Proof.
  refine (conj eq_refl (conj eq_refl (conj eq_refl _))).
  exact (import_data_stops_at_raise Sample.state_broken Sample.batch 100 50
           Sample.simple_reader Sample.broken_chunker Sample.minilm
           eq_refl eq_refl eq_refl).
Defined.

Lemma retrieve_all_documents_error_response_witness :
  Registry.selected (embedder_manager (self Sample.state)) = Some Sample.minilm
  /\ client (self Sample.state) = Some "embedded"
  /\ assoc_get [("errors", PyList [PyStr "no such class"])] "data" = None
  /\ fst (retrieve_all_documents Sample.query_error Sample.state)
     = Raised (KeyError "data").
Proof.
  refine (conj eq_refl (conj eq_refl (conj eq_refl _))).
  rewrite (retrieve_all_documents_error_response Sample.query_error Sample.state
             Sample.minilm "embedded" [("errors", PyList [PyStr "no such class"])] []
             eq_refl eq_refl eq_refl eq_refl).
  reflexivity.
Defined.

Lemma get_schemas_counts_every_class_witness :
  client (self Sample.state_loaded) = Some "embedded"
  /\ exists schemas s',
      get_schemas Sample.schema_get Sample.query_do Sample.state_loaded
      = (Returned schemas, s')
      /\ schemas !! "Document_MiniLM" = Some 2
      /\ exists names,
          trace (world s')
          = trace (world Sample.state_loaded)
            ++ EvSchemaGet "embedded"
               :: map (fun name =>
                         EvQuery "embedded"
                           {| q_class_name := name; q_properties := [];
                              q_additional := ["id"]; q_limit := Some 100000%Z |})
                    names
          /\ dom schemas = list_to_set names.
Proof.
  split; [reflexivity|].
  pose (r := get_schemas Sample.schema_get Sample.query_do Sample.state_loaded).
  exists (match fst r with Returned m => m | Raised _ => ∅ end), (snd r).
  assert (Hrun : get_schemas Sample.schema_get Sample.query_do Sample.state_loaded
                 = (Returned (match fst r with Returned m => m | Raised _ => ∅ end),
                    snd r))
    by (vm_compute; reflexivity).
  split; [exact Hrun|]. split; [vm_compute; reflexivity|].
  destruct (get_schemas_counts_every_class Sample.schema_get Sample.query_do
              Sample.state_loaded _ "embedded" _ eq_refl Hrun)
    as (info & classes & items & names & _ & _ & _ & _ & Htrace & Hdom & _).
  exists names. split; assumption.
Defined.

Lemma get_schemas_counts_capped_witness :
  honours_limit Sample.query_do
  /\ client (self Sample.state_loaded) = Some "embedded"
  /\ exists schemas s',
      get_schemas Sample.schema_get Sample.query_do Sample.state_loaded
      = (Returned schemas, s')
      /\ schemas !! "Document_MiniLM" = Some 2
      /\ (Z.of_nat 2 <= 100000)%Z.
Proof.
  split; [exact sample_store_honours_limit|]. split; [reflexivity|].
  pose (r := get_schemas Sample.schema_get Sample.query_do Sample.state_loaded).
  exists (match fst r with Returned m => m | Raised _ => ∅ end), (snd r).
  assert (Hrun : get_schemas Sample.schema_get Sample.query_do Sample.state_loaded
                 = (Returned (match fst r with Returned m => m | Raised _ => ∅ end),
                    snd r))
    by (vm_compute; reflexivity).
  assert (Hlookup : (match fst r with Returned m => m | Raised _ => ∅ end)
                    !! "Document_MiniLM" = Some 2)
    by (vm_compute; reflexivity).
  refine (conj Hrun (conj Hlookup _)).
  exact (get_schemas_counts_capped Sample.schema_get Sample.query_do
           Sample.state_loaded _ "embedded" _ sample_store_honours_limit
           sample_store_answers_lists eq_refl Hrun "Document_MiniLM" 2 Hlookup).
Defined.

Lemma constructed_manager_witness :
  openai_module Sample.world_remote_bare = None
  /\ exists m,
      fst (__init__ Sample.connect Sample.init_schemas Sample.VECTORIZERS
             Sample.EMBEDDINGS Sample.readers Sample.chunkers Sample.embedders
             Sample.world_remote_bare) = Returned m
      /\ environment_variables m
         = <["OPENAI_API_KEY" := true]> {["VERBA_URL" := true]}
      /\ installed_libraries m = {["spacy" := false]}
      /\ weaviate_type m = "Weaviate Cluster"
      /\ is_Some (client m).
Proof.
  split; [reflexivity|].
  set (m := match fst (__init__ Sample.connect Sample.init_schemas
                         Sample.VECTORIZERS Sample.EMBEDDINGS Sample.readers
                         Sample.chunkers Sample.embedders Sample.world_remote_bare)
            with
            | Returned m => m
            | Raised _ => Sample.manager
            end).
  assert (Hrun : fst (__init__ Sample.connect Sample.init_schemas
                        Sample.VECTORIZERS Sample.EMBEDDINGS Sample.readers
                        Sample.chunkers Sample.embedders Sample.world_remote_bare)
                 = Returned m)
    by (vm_compute; reflexivity).
  pose proof (constructed_manager Sample.connect Sample.init_schemas
                Sample.VECTORIZERS Sample.EMBEDDINGS Sample.readers Sample.chunkers
                Sample.embedders Sample.world_remote_bare m Hrun) as Hm.
  cbv zeta in Hm. destruct Hm as (Henv & Hlib & Htype & Hclient & _).
  exists m. split; [exact Hrun|].
  rewrite Henv, Hlib, Htype. clearbody m.
  repeat apply conj; [vm_compute; reflexivity | reflexivity
                     | vm_compute; reflexivity | exact Hclient].
Defined.
